(** * pyalexs3: the OpenAlex S3 mirror ([main.py]), embedded in Rocq

    The development follows the class [OpenAlexParser] of [main.py]:

    - Python strings are [string]s, one character for each code point,
      for the code points below 256 (ASCII and Latin-1: an S3 key or an
      argument with a code point above 255 is outside this development);
      the few [str] methods and library functions the program calls
      ([split], [lower], [replace], [repr], [int(...)],
      [date.fromisoformat]) are written out below, following CPython
      3.11;
    - the regular expression of [__extract_date] is run by a small
      backtracking matcher with greedy [+], as [re.search] does;
    - exceptions are an error monad over an explicit program state
      (local file system, DuckDB catalog, progress log, I/O trace);
    - everything the program asks of the outside (the S3 listing, the
      per-object metadata, the download, the NDJSON reader, the clock)
      is a field of a [world] record, so the functions stay executable.
*)

From Stdlib Require Import ZArith Ascii String List Bool Lia.
From stdpp Require Import base option gmap strings list fin_maps pretty.

Local Open Scope string_scope.
Local Open Scope Z_scope.

(* ===================================================================== *)
(** ** Exceptions                                                         *)
(* ===================================================================== *)

Inductive exn : Type :=
| AssertionError (msg : string)
| ValueError (msg : string)
| TypeError (msg : string)
| AttributeError (msg : string)
| OSError (msg : string)
| ClientError (msg : string)      (* botocore *)
| DuckDBError (msg : string).     (* duckdb.Error *)

(** [str(e)] *)
Definition exn_str (e : exn) : string :=
  match e with
  | AssertionError m | ValueError m | TypeError m | AttributeError m
  | OSError m | ClientError m | DuckDBError m => m
  end.

Inductive result (A : Type) : Type :=
| Ok (a : A)
| Raise (e : exn).
Arguments Ok {A} a.
Arguments Raise {A} e.

Definition is_ok {A} (r : result A) : bool :=
  match r with Ok _ => true | Raise _ => false end.

(* ===================================================================== *)
(** ** Python strings                                                     *)
(* ===================================================================== *)

(** [c in "0123456789"]: the character class [[0-9]] of the pattern. *)
Definition is_digit (c : ascii) : bool :=
  ((48 <=? nat_of_ascii c)%nat && (nat_of_ascii c <=? 57)%nat)%bool.

Definition digit_val (c : ascii) : Z := Z.of_nat (nat_of_ascii c) - 48.

Definition starts_with_digit (s : string) : bool :=
  match s with
  | String c _ => is_digit c
  | EmptyString => false
  end.

Fixpoint all_digits (s : string) : bool :=
  match s with
  | EmptyString => true
  | String c s' => (is_digit c && all_digits s')%bool
  end.

(** [s.startswith(p)], returning the rest of [s] after [p]. *)
Fixpoint strip_prefix (p s : string) : option string :=
  match p, s with
  | EmptyString, _ => Some s
  | String a p', String b s' =>
      if Ascii.eqb a b then strip_prefix p' s' else None
  | String _ _, EmptyString => None
  end.

(** [s[:n]] *)
Fixpoint take_str (n : nat) (s : string) : string :=
  match n, s with
  | S n', String c s' => String c (take_str n' s')
  | _, _ => EmptyString
  end.

(** [s.split(sep)] for a one-character separator: never empty. *)
Fixpoint split_on (sep : ascii) (s : string) : list string :=
  match s with
  | EmptyString => [EmptyString]
  | String c s' =>
      if Ascii.eqb c sep then EmptyString :: split_on sep s'
      else match split_on sep s' with
           | seg :: segs => String c seg :: segs
           | [] => [String c EmptyString]
           end
  end.

(** [l[-1]] of a list of strings ([IndexError] cannot happen after
    [split]; the default is never used there). *)
Definition last_seg (l : list string) : string := List.last l EmptyString.

(** [l[-2:]] *)
Definition last_two (l : list string) : list string :=
  List.skipn (List.length l - 2) l.

(** [sep.join(l)] *)
Fixpoint join (sep : string) (l : list string) : string :=
  match l with
  | [] => EmptyString
  | [x] => x
  | x :: rest => x ++ sep ++ join sep rest
  end.

(** The cased letters below 256: [A-Z], and the Latin-1 capitals
    192-222 without the multiplication sign 215. *)
Definition lower_char (c : ascii) : ascii :=
  let n := nat_of_ascii c in
  if (((65 <=? n)%nat && (n <=? 90)%nat)
      || ((192 <=? n)%nat && (n <=? 222)%nat && negb (n =? 215)%nat))%bool
  then ascii_of_nat (n + 32) else c.

(** [s.lower()] *)
Fixpoint lower (s : string) : string :=
  match s with
  | EmptyString => EmptyString
  | String c s' => String (lower_char c) (lower s')
  end.

(** [s.replace(old, "")] for a non-empty [old]: every non-overlapping
    occurrence, scanning from the left.  [skip] counts the characters of
    an occurrence that is being dropped. *)
Fixpoint remove_from (old : string) (skip : nat) (s : string) : string :=
  match s with
  | EmptyString => EmptyString
  | String c s' =>
      match skip with
      | S k => remove_from old k s'
      | O =>
          match strip_prefix old s with
          | Some _ => remove_from old (String.length old - 1) s'
          | None => String c (remove_from old 0 s')
          end
      end
  end.

Definition remove_all (old s : string) : string := remove_from old 0 s.

(** [c in s] *)
Fixpoint has_char (c : ascii) (s : string) : bool :=
  match s with
  | EmptyString => false
  | String x s' => (Ascii.eqb x c || has_char c s')%bool
  end.

(** *** [repr(s)] *)

Definition quote1 : ascii := ascii_of_nat 39.      (* the single quote *)
Definition quote2 : ascii := ascii_of_nat 34.      (* the double quote *)
Definition backslash : ascii := ascii_of_nat 92.

(** [chr(n).isprintable()] below 256: not the controls 0-31 and 127-159,
    the no-break space 160 or the soft hyphen 173. *)
Definition is_printable (n : nat) : bool :=
  negb ((n <? 32)%nat || ((127 <=? n)%nat && (n <=? 160)%nat) || (n =? 173)%nat)%bool.

Definition hex_digit (n : nat) : ascii :=
  List.nth n (list_ascii_of_string "0123456789abcdef") "0"%char.

(** One character of [repr(s)], inside the quotes [quote]. *)
Definition repr_char (quote c : ascii) : string :=
  let n := nat_of_ascii c in
  if (Ascii.eqb c quote || Ascii.eqb c backslash)%bool
  then String backslash (String c EmptyString)
  else if (n =? 9)%nat then String backslash "t"
  else if (n =? 10)%nat then String backslash "n"
  else if (n =? 13)%nat then String backslash "r"
  else if is_printable n then String c EmptyString
  else String backslash
         (String "x" (String (hex_digit (n / 16)) (String (hex_digit (n mod 16)) EmptyString))).

Fixpoint repr_chars (quote : ascii) (s : string) : string :=
  match s with
  | EmptyString => EmptyString
  | String c s' => repr_char quote c ++ repr_chars quote s'
  end.

(** [repr(s)]: in single quotes, unless [s] holds a single quote and no
    double quote. *)
Definition py_repr (s : string) : string :=
  let quote := if (has_char quote1 s && negb (has_char quote2 s))%bool
               then quote2 else quote1 in
  String quote (repr_chars quote s ++ String quote EmptyString).

(** *** [int(s)] *)

(** The characters [int()] strips around a literal: the white space of
    C's [isspace] (9-13 and 32) and, of the code points from 127 on, the
    Unicode spaces (133 and 160 below 256).  The separators 28-31 are
    white space for [str.isspace] but not here. *)
Definition is_space (c : ascii) : bool :=
  let n := nat_of_ascii c in
  (((9 <=? n)%nat && (n <=? 13)%nat) || (n =? 32)%nat
   || (n =? 133)%nat || (n =? 160)%nat)%bool.

Fixpoint lstrip (s : string) : string :=
  match s with
  | String c s' => if is_space c then lstrip s' else s
  | EmptyString => EmptyString
  end.

(** The scan of the digits of a decimal literal, most significant first,
    with single underscores allowed between digits: the value, the
    number of digits, and what follows the run.  [prev_digit] says
    whether the previous character was a digit (so that an underscore
    may follow); [None] is a misplaced underscore. *)
Fixpoint scan_digits (acc : Z) (digits : nat) (prev_digit : bool) (s : string)
  : option (Z * nat * string) :=
  match s with
  | EmptyString => Some (acc, digits, s)
  | String c s' =>
      if is_digit c then scan_digits (10 * acc + digit_val c) (S digits) true s'
      else if Ascii.eqb c "_" then
        if (prev_digit && starts_with_digit s')%bool
        then scan_digits acc digits false s' else None
      else Some (acc, digits, s)
  end.

(** [sys.get_int_max_str_digits()], at its default. *)
Definition int_max_str_digits : nat := 4300.

Definition invalid_literal (s : string) : exn :=
  ValueError ("invalid literal for int() with base 10: " ++ take_str 200 (py_repr s)).

Definition exceeds_limit (digits : nat) : exn :=
  ValueError ("Exceeds the limit (4300 digits) for integer string conversion: value has "
              ++ pretty digits
              ++ " digits; use sys.set_int_max_str_digits() to increase the limit").

(** [int(s)] in base 10: white space, a sign, the digits, white space. *)
Definition py_int (s : string) : result Z :=
  let body := lstrip s in
  let negative := match body with String "-" _ => true | _ => false end in
  let literal :=
    match body with
    | String "-" r | String "+" r => r
    | _ => body
    end in
  match scan_digits 0 0 false literal with
  | None => Raise (invalid_literal s)
  | Some (v, digits, rest) =>
      if (int_max_str_digits <? digits)%nat then Raise (exceeds_limit digits)
      else if (digits =? 0)%nat then Raise (invalid_literal s)
      else match lstrip rest with
           | EmptyString => Ok (if negative then - v else v)
           | _ => Raise (invalid_literal s)
           end
  end.

(* ===================================================================== *)
(** ** The pattern of [__extract_date]                                    *)
(* ===================================================================== *)

(** The fragment of regular expressions the pattern
    [(updated_date=([0-9]+-[0-9]+-[0-9]+))] is written in. *)
Inductive regex : Type :=
| Lit (s : string)          (* a literal text *)
| Digits                    (* [0-9]+, greedy *)
| Cat (r1 r2 : regex).

(** Greedy [[0-9]+] at the head of [s]: one digit, then as many more as
    the continuation allows, longest first. *)
Fixpoint plus_digits {A} (s : string) (k : string -> option A) : option A :=
  match s with
  | EmptyString => None
  | String c s' =>
      if is_digit c then
        match plus_digits s' k with
        | Some r => Some r
        | None => k s'
        end
      else None
  end.

(** Backtracking match of [r] at the head of [s]; [k] receives what is
    left of [s] after the match and may reject it. *)
Fixpoint match_re {A} (r : regex) (s : string) (k : string -> option A) : option A :=
  match r with
  | Lit p => match strip_prefix p s with Some s' => k s' | None => None end
  | Digits => plus_digits s k
  | Cat r1 r2 => match_re r1 s (fun s' => match_re r2 s' k)
  end.

(** Group 2 of the pattern. *)
Definition date_re : regex :=
  Cat Digits (Cat (Lit "-") (Cat Digits (Cat (Lit "-") Digits))).

(** [pat.match] at the head of [s]: the text of group 2. *)
Definition match_here (s : string) : option string :=
  match_re (Lit "updated_date=") s (fun s1 =>
    match_re date_re s1 (fun s2 =>
      Some (take_str (String.length s1 - String.length s2) s1))).

(** [pat.search(txt)]: the first position, from the left, at which the
    pattern matches. *)
Fixpoint search (txt : string) : option string :=
  match match_here txt with
  | Some g => Some g
  | None =>
      match txt with
      | EmptyString => None
      | String _ txt' => search txt'
      end
  end.

(** [__extract_date] (lines 106-110; the definition at lines 78-81, which
    it replaces in the class body, is the same). *)
Definition extract_date (txt : string) : string :=
  match search txt with
  | Some g => g
  | None => ""
  end.

(* ===================================================================== *)
(** ** Calendar dates ([datetime.date])                                   *)
(* ===================================================================== *)

Record date : Type := mkdate { year : Z; month : Z; day : Z }.

Definition is_leap (y : Z) : bool :=
  ((y mod 4 =? 0) && (negb (y mod 100 =? 0) || (y mod 400 =? 0)))%bool.

Definition days_in_month (y m : Z) : Z :=
  if m =? 2 then (if is_leap y then 29 else 28)
  else if ((m =? 4) || (m =? 6) || (m =? 9) || (m =? 11))%bool then 30
  else 31.

(** The checks of the [date] constructor. *)
Definition valid_date (d : date) : bool :=
  ((1 <=? year d) && (year d <=? 9999) &&
   (1 <=? month d) && (month d <=? 12) &&
   (1 <=? day d) && (day d <=? days_in_month (year d) (month d)))%bool.

(** *** [datetime.date.fromisoformat] (CPython 3.11, [_datetimemodule.c])

    The function reads [YYYY-MM-DD], [YYYYMMDD], [YYYY-Www], [YYYYWww],
    [YYYY-Www-D] and [YYYYWwwD].  It takes the length of the text in
    UTF-8 (7, 8 or 10 bytes) and does not look at what follows the last
    field it reads. *)

(** [len(s.encode())]: a code point from 128 on takes two bytes. *)
Fixpoint utf8_len (s : string) : nat :=
  match s with
  | EmptyString => 0
  | String c s' => ((if (nat_of_ascii c <? 128)%nat then 1 else 2) + utf8_len s')%nat
  end.

(** [parse_digits]: exactly [n] decimal digits; the value and the rest. *)
Fixpoint parse_digits (n : nat) (acc : Z) (s : string) : option (Z * string) :=
  match n with
  | O => Some (acc, s)
  | S n' =>
      match s with
      | String c s' =>
          if is_digit c then parse_digits n' (10 * acc + digit_val c) s' else None
      | EmptyString => None
      end
  end.

(** Days before January 1st of year [y]; the divisions are C's. *)
Definition days_before_year (y : Z) : Z :=
  let y := y - 1 in
  y * 365 + Z.quot y 4 - Z.quot y 100 + Z.quot y 400.

(** Days of year [y] before the first of month [m] ([1 <= m <= 12]). *)
Definition days_before_month (y m : Z) : Z :=
  List.nth (Z.to_nat m) [0; 0; 31; 59; 90; 120; 151; 181; 212; 243; 273; 304; 334] 0
  + (if ((2 <? m) && is_leap y)%bool then 1 else 0).

(** The ordinal of a date: 1 for 0001-01-01. *)
Definition ymd_to_ord (y m d : Z) : Z :=
  days_before_year y + days_before_month y m + d.

(** 0 for Monday ... 6 for Sunday. *)
Definition weekday (y m d : Z) : Z := Z.rem (ymd_to_ord y m d + 6) 7.

(** The ordinal of the Monday that starts ISO week 1 of year [y]. *)
Definition iso_week1_monday (y : Z) : Z :=
  let first_day := ymd_to_ord y 1 1 in
  let first_weekday := Z.rem (first_day + 6) 7 in
  let week1_monday := first_day - first_weekday in
  if 3 <? first_weekday then week1_monday + 7 else week1_monday.

(** [ord_to_ymd]: the date of an ordinal, by 400-, 100-, 4- and 1-year
    cycles.  Below ordinal 1 (an ISO week of year 0) the C code leaves a
    month below 1, which the constructor then refuses; that month is
    written 0 here. *)
Definition ord_to_ymd (ordinal : Z) : Z * Z * Z :=
  if ordinal <? 1 then (1, 0, 0)
  else
    let ordinal := ordinal - 1 in
    let n400 := ordinal / 146097 in
    let n := ordinal mod 146097 in
    let n100 := n / 36524 in
    let n := n mod 36524 in
    let n4 := n / 1461 in
    let n := n mod 1461 in
    let n1 := n / 365 in
    let n := n mod 365 in
    let y := n400 * 400 + 1 + n100 * 100 + n4 * 4 + n1 in
    if ((n1 =? 4) || (n100 =? 4))%bool then (y - 1, 12, 31)
    else
      let leapyear := ((n1 =? 3) && (negb (n4 =? 24) || (n100 =? 3)))%bool in
      let m := Z.shiftr (n + 50) 5 in
      let preceding :=
        List.nth (Z.to_nat m) [0; 0; 31; 59; 90; 120; 151; 181; 212; 243; 273; 304; 334] 0
        + (if ((2 <? m) && leapyear)%bool then 1 else 0) in
      if n <? preceding
      then (y, m - 1, n - (preceding - days_in_month y (m - 1)) + 1)
      else (y, m, n - preceding + 1).

(** [iso_to_ymd]: week 53 only in the years that have one (January 1st a
    Thursday, or a Wednesday in a leap year); days 1 to 7. *)
Definition iso_to_ymd (iso_year iso_week iso_day : Z) : option (Z * Z * Z) :=
  let week_out_of_range :=
    ((iso_week <=? 0) || (53 <=? iso_week))%bool
    && negb ((iso_week =? 53)
             && (let first_weekday := weekday iso_year 1 1 in
                 (first_weekday =? 3)
                 || ((first_weekday =? 2) && is_leap iso_year)))%bool in
  if week_out_of_range then None
  else if ((iso_day <=? 0) || (8 <=? iso_day))%bool then None
  else
    let day_1 := iso_week1_monday iso_year in
    let day_offset := (iso_week - 1) * 7 + iso_day - 1 in
    Some (ord_to_ymd (day_1 + day_offset)).

(** The month and the day after the year, for the calendar forms:
    [uses_separator] says whether a [-] followed the year. *)
Definition parse_month_day (uses_separator : bool) (y : Z) (p : string)
  : option (Z * Z * Z) :=
  match parse_digits 2 0 p with
  | None => None
  | Some (m, p) =>
      let after_separator :=
        if uses_separator
        then match p with String "-" p' => Some p' | _ => None end
        else Some p in
      match after_separator with
      | None => None
      | Some p =>
          match parse_digits 2 0 p with
          | Some (d, _) => Some (y, m, d)
          | None => None
          end
      end
  end.

(** The week and the day after [W], for the ISO week forms; without a
    day the date is the Monday of the week. *)
Definition parse_week_day (uses_separator : bool) (y : Z) (p : string)
  : option (Z * Z * Z) :=
  match parse_digits 2 0 p with
  | None => None
  | Some (iso_week, p) =>
      match p with
      | EmptyString => iso_to_ymd y iso_week 1
      | String c p' =>
          let after_separator :=
            if uses_separator
            then (if Ascii.eqb c "-" then Some p' else None)
            else Some p in
          match after_separator with
          | None => None
          | Some p =>
              match parse_digits 1 0 p with
              | Some (iso_day, _) => iso_to_ymd y iso_week iso_day
              | None => None
              end
          end
      end
  end.

(** [parse_isoformat_date]: the year, the month and the day the text
    gives, before the checks of the constructor. *)
Definition parse_isoformat_date (s : string) : option (Z * Z * Z) :=
  match parse_digits 4 0 s with
  | None => None
  | Some (y, p) =>
      let uses_separator := match p with String "-" _ => true | _ => false end in
      let p := match p with String "-" p' => p' | _ => p end in
      match p with
      | String "W" p' => parse_week_day uses_separator y p'
      | _ => parse_month_day uses_separator y p
      end
  end.

Definition isoformat_fields (s : string) : option (Z * Z * Z) :=
  let len := utf8_len s in
  if ((len =? 7)%nat || (len =? 8)%nat || (len =? 10)%nat)%bool
  then parse_isoformat_date s else None.

(** [datetime.date.fromisoformat] on a [str]; [None] stands for
    [ValueError]. *)
Definition fromisoformat (s : string) : option date :=
  match isoformat_fields s with
  | Some (y, m, d) =>
      if valid_date (mkdate y m d) then Some (mkdate y m d) else None
  | None => None
  end.

(** The text of that [ValueError]: the text could not be read, or the
    constructor refused the year, the month or the day. *)
Definition isoformat_error (s : string) : string :=
  match isoformat_fields s with
  | None => "Invalid isoformat string: " ++ py_repr s
  | Some (y, m, d) =>
      if ((y <? 1) || (9999 <? y))%bool then "year " ++ pretty y ++ " is out of range"
      else if ((m <? 1) || (12 <? m))%bool then "month must be in 1..12"
      else "day is out of range for month"
  end.

(** [a < b] and [a <= b] on dates: by year, then month, then day. *)
Definition date_lt (a b : date) : bool :=
  ((year a <? year b) ||
   ((year a =? year b) &&
    ((month a <? month b) || ((month a =? month b) && (day a <? day b)))))%bool.

Definition date_le (a b : date) : bool := negb (date_lt b a).

(* ===================================================================== *)
(** ** Python values and exceptions                                       *)
(* ===================================================================== *)

(** The values an argument of [load_table] can hold.  [PyFloat] keeps
    only the text of the number: the program never computes with one. *)
#[warnings="-register-all"]
Inductive pyval : Type :=
| PyNone
| PyBool (b : bool)
| PyInt (z : Z)
| PyFloat (text : string)
| PyStr (s : string)
| PyList (l : list pyval)
| PyDate (d : date).

(** [isinstance(v, str)], [isinstance(v, int)] ([bool] is a subclass of
    [int]) and [isinstance(v, list)]. *)
Definition isinstance_str (v : pyval) : bool :=
  match v with PyStr _ => true | _ => false end.

Definition isinstance_int (v : pyval) : bool :=
  match v with PyInt _ | PyBool _ => true | _ => false end.

Definition isinstance_list (v : pyval) : bool :=
  match v with PyList _ => true | _ => false end.

Definition is_none (v : pyval) : bool :=
  match v with PyNone => true | _ => false end.

(** [str(type(v))] *)
Definition type_str (v : pyval) : string :=
  match v with
  | PyNone => "<class 'NoneType'>"
  | PyBool _ => "<class 'bool'>"
  | PyInt _ => "<class 'int'>"
  | PyFloat _ => "<class 'float'>"
  | PyStr _ => "<class 'str'>"
  | PyList _ => "<class 'list'>"
  | PyDate _ => "<class 'datetime.date'>"
  end.

(** [n == v] for an [int] [n]; only used on values that passed
    [isinstance(v, int)]. *)
Definition py_eq_int (n : Z) (v : pyval) : bool :=
  match v with
  | PyInt z => z =? n
  | PyBool b => Z.b2z b =? n
  | _ => false
  end.

(** [datetime.date.fromisoformat(v)] on any value: a non-[str] argument
    is a [TypeError]. *)
Definition date_fromisoformat (v : pyval) : result date :=
  match v with
  | PyStr s =>
      match fromisoformat s with
      | Some d => Ok d
      | None => Raise (ValueError (isoformat_error s))
      end
  | _ => Raise (TypeError "fromisoformat: argument must be str")
  end.

(** [__check_date_fmt] (lines 99-104): only [ValueError] is caught. *)
Definition check_date_fmt (txt : pyval) : result bool :=
  match date_fromisoformat txt with
  | Ok _ => Ok true
  | Raise (ValueError _) => Ok false
  | Raise e => Raise e
  end.

(* ===================================================================== *)
(** ** The outside world and the program state                            *)
(* ===================================================================== *)

(** One entry of a listing page ([obj["Key"]]) and one page
    ([page.get("Contents", [])]: a page may come without the field). *)
Record s3_object : Type := mkobj { Key : string }.
Record page : Type := mkpage { Contents : option (list s3_object) }.

Definition page_contents (p : page) : list s3_object :=
  match Contents p with Some l => l | None => [] end.

(** [SELECT {cols} FROM read_ndjson_auto('{download_dir}/*',
    columns={schema}){limit}] (line 273), kept as the values the text is
    formatted from. *)
Record select_clause : Type := mkselect {
  sel_cols : pyval;              (* "*" or the list given as [cols] *)
  sel_dir : string;              (* download_dir *)
  sel_columns : option string;   (* the schema; None for an unmapped type *)
  sel_limit : pyval              (* None (no LIMIT) or the given limit *)
}.

Inductive table_kind : Type := Temporary | Persistent.

(** [INSERT INTO t <select>], [CREATE TEMPORARY TABLE t AS <select>] and
    [CREATE TABLE t AS <select>] (lines 282-294). *)
Inductive stmt : Type :=
| InsertInto (t : string) (sel : select_clause)
| CreateTableAs (k : table_kind) (t : string) (sel : select_clause).

Definition stmt_table (s : stmt) : string :=
  match s with InsertInto t _ | CreateTableAs _ t _ => t end.

Definition stmt_select (s : stmt) : select_clause :=
  match s with InsertInto _ sel | CreateTableAs _ _ sel => sel end.

(** A table of the connection: its rows are the NDJSON records read. *)
Record table : Type := mktable {
  table_name : string;
  table_kind_of : table_kind;
  table_rows : list string
}.

(** What leaves the process, oldest first.  [Execute] carries the number
    of rows the statement wrote, or [None] when it raised. *)
Inductive io_event : Type :=
| MakeDirs (dir : string)
| ListObjects (prefix : string)
| HeadObject (key : string)
| DownloadFile (key : string) (file_name : string)
| QueryTables (t : string)
| Execute (s : stmt) (written : option nat)
| RmTree (dir : string).

Record state : Type := mkstate {
  fs : gmap string (gmap string string);  (* directory -> file name -> bytes *)
  catalog : list table;                   (* the DuckDB connection *)
  log : list string;                      (* lines of progress.log *)
  trace : list io_event
}.

(** The collaborators of section 6 of the specification, as functions of
    their arguments.  [WORKS_SCHEMA] comes from the module [utils].  The
    listing is the one the bucket answers with: a listing request that
    fails is outside this development.  [download_file] is the outcome
    of one [download_file] call into the staging directory: the bytes
    written under the local name, or the exception of the transfer or of
    the local file system.  [select_list] is DuckDB's answer to [SELECT
    {cols} FROM t] for a [cols] other than [*], from the rows of [t];
    the text formatted from a Python list is a query of its own (a list
    value, or names DuckDB refuses). *)
Record world : Type := mkworld {
  today : date;                                     (* datetime.date.today() *)
  list_objects_v2 : string -> list page;            (* by Prefix, bucket openalex *)
  head_object : string -> result Z;                 (* ContentLength of a key *)
  download_file : string -> result string;          (* the download of a key *)
  read_ndjson_auto :
    select_clause -> gmap string string -> result (list string);
  select_list : pyval -> list string -> result (list string);
  WORKS_SCHEMA : string
}.

(** The instance: [__n_workers], [__persist_path], and the attribute
    [__obj_type] that [__get_start_date] reads.  [__init__] does not
    assign [__obj_type], and no method does. *)
Record OpenAlexParser : Type := mkparser {
  n_workers : Z;
  persist_path : option string;
  attr_obj_type : option string
}.

(** [__init__] (lines 42-72), the attributes only. *)
Definition init (n_workers : Z) (persist_path : option string) : OpenAlexParser :=
  mkparser n_workers persist_path None.

(** *** The monad: state, and exceptions that keep the state *)

Definition M (A : Type) : Type := state -> result A * state.

Definition ret {A} (a : A) : M A := fun st => (Ok a, st).
Definition raise {A} (e : exn) : M A := fun st => (Raise e, st).

Definition bind {A B} (m : M A) (k : A -> M B) : M B :=
  fun st =>
    match m st with
    | (Ok a, st') => k a st'
    | (Raise e, st') => (Raise e, st')
    end.

Notation "x <-- m ;; k" := (bind m (fun x => k))
  (at level 100, m at next level, right associativity).
Notation "m ;;; k" := (bind m (fun _ => k))
  (at level 100, right associativity).

Definition lift {A} (r : result A) : M A := fun st => (r, st).

Definition emit (e : io_event) : M unit :=
  fun st => (Ok tt, mkstate (fs st) (catalog st) (log st) (trace st ++ [e])).

Definition progress_log (line : string) : M unit :=
  fun st => (Ok tt, mkstate (fs st) (catalog st) (log st ++ [line]) (trace st)).

Definition set_fs (f : gmap string (gmap string string)) : M unit :=
  fun st => (Ok tt, mkstate f (catalog st) (log st) (trace st)).

Definition set_catalog (c : list table) : M unit :=
  fun st => (Ok tt, mkstate (fs st) c (log st) (trace st)).

Definition get_state : M state := fun st => (Ok st, st).

(* ===================================================================== *)
(** ** The methods of [OpenAlexParser]                                    *)
(* ===================================================================== *)

(** [__get_schema] (lines 74-76): no [return] for any other type. *)
Definition get_schema (w : world) (obj_type : string) : option string :=
  if String.eqb obj_type "works" then Some (WORKS_SCHEMA w) else None.

(** [obj["Key"].split("/")[-1].lower() == "manifest"] *)
Definition is_manifest (key : string) : bool :=
  String.eqb (lower (last_seg (split_on "/" key))) "manifest".

(** *** [__get_start_date] (lines 83-97) *)

(** The inner loop over one page: [Ok (Some dat)] is the [return dat] of
    line 97, [Ok None] the end of the page. *)
Fixpoint get_start_date_objs (start_date : date) (objs : list s3_object)
  : result (option string) :=
  match objs with
  | [] => Ok None
  | obj :: rest =>
      if is_manifest (Key obj) then get_start_date_objs start_date rest
      else
        let dat := extract_date (Key obj) in
        if negb (String.eqb dat "") then
          match date_fromisoformat (PyStr dat) with
          | Raise e => Raise e
          | Ok d =>
              if date_lt d start_date then Ok (Some dat)
              else get_start_date_objs start_date rest
          end
        else get_start_date_objs start_date rest
  end.

(** The outer loop over the pages; falling off its end returns [None]. *)
Fixpoint get_start_date_pages (start_date : date) (pages : list page)
  : result (option string) :=
  match pages with
  | [] => Ok None
  | p :: ps =>
      match get_start_date_objs start_date (page_contents p) with
      | Ok None => get_start_date_pages start_date ps
      | r => r
      end
  end.

Definition no_obj_type_attr : exn :=
  AttributeError
    "'OpenAlexParser' object has no attribute '_OpenAlexParser__obj_type'".

(** The method: [self.__obj_type] is read while the arguments of
    [paginate] are built (line 89), before any request is sent. *)
Definition get_start_date (self : OpenAlexParser) (w : world) : M pyval :=
  let start_date := today w in
  match attr_obj_type self with
  | None => raise no_obj_type_attr
  | Some ot =>
      let prefix := "data/" ++ ot ++ "/" in
      emit (ListObjects prefix) ;;;
      r <-- lift (get_start_date_pages start_date (list_objects_v2 w prefix)) ;;
      ret (match r with Some dat => PyStr dat | None => PyNone end)
  end.

(** *** [__get_files] (lines 112-127) *)

Fixpoint get_files_objs (start_date end_date : date) (objs : list s3_object)
    (file_list : list string) : result (list string) :=
  match objs with
  | [] => Ok file_list
  | obj :: rest =>
      if is_manifest (Key obj) then
        get_files_objs start_date end_date rest file_list
      else
        let dat := extract_date (Key obj) in
        match date_fromisoformat (PyStr dat) with
        | Raise e => Raise e
        | Ok d =>
            if (date_le start_date d && date_le d end_date)%bool
            then get_files_objs start_date end_date rest (file_list ++ [Key obj])
            else get_files_objs start_date end_date rest file_list
        end
  end.

Fixpoint get_files_pages (start_date end_date : date) (pages : list page)
    (file_list : list string) : result (list string) :=
  match pages with
  | [] => Ok file_list
  | p :: ps =>
      match get_files_objs start_date end_date (page_contents p) file_list with
      | Ok file_list' => get_files_pages start_date end_date ps file_list'
      | Raise e => Raise e
      end
  end.

Definition get_files (w : world) (obj_type : string) (start_date end_date : pyval)
  : M (list string) :=
  sd <-- lift (date_fromisoformat start_date) ;;
  ed <-- lift (date_fromisoformat end_date) ;;
  let prefix := "data/" ++ obj_type ++ "/" in
  emit (ListObjects prefix) ;;;
  lift (get_files_pages sd ed (list_objects_v2 w prefix) []).

(** *** [__copy_data] (lines 129-143) *)

(** ["_".join(key.split("/")[-2:])] *)
Definition local_name (key : string) : string :=
  join "_" (last_two (split_on "/" key)).

(** Writing a file into a directory that is there. *)
Definition write_file (dir name body : string) : M unit :=
  fun st =>
    match fs st !! dir with
    | Some files =>
        (Ok tt, mkstate (<[dir := <[name := body]> files]> (fs st))
                        (catalog st) (log st) (trace st))
    | None => (Raise (OSError ("No such file or directory: '" ++ dir ++ "'")), st)
    end.

Definition copy_data (w : world) (key download_dir : string) : M unit :=
  emit (HeadObject key) ;;;
  size <-- lift (head_object w key) ;;
  let file_name := local_name key in
  emit (DownloadFile key file_name) ;;;
  body <-- lift (download_file w key) ;;
  write_file download_dir file_name body.

(** *** [__download_files] (lines 145-183) *)

(** [parts != "*"] *)
Definition is_star (v : pyval) : bool :=
  match v with PyStr s => String.eqb s "*" | _ => false end.

(** [int(f.split("/")[-1].replace("part_", "").replace(".gz", ""))] *)
Definition part_number (f : string) : result Z :=
  let txt := remove_all ".gz" (remove_all "part_" (last_seg (split_on "/" f))) in
  py_int txt.

(** The comprehension of lines 158-163. *)
Fixpoint filter_parts (parts : list pyval) (files : list string)
  : result (list string) :=
  match files with
  | [] => Ok []
  | f :: rest =>
      match part_number f with
      | Raise e => Raise e
      | Ok n =>
          match filter_parts parts rest with
          | Raise e => Raise e
          | Ok rest' => Ok (if existsb (py_eq_int n) parts then f :: rest' else rest')
          end
      end
  end.

Definition select_parts (parts : pyval) (files : list string) : result (list string) :=
  if is_star parts then Ok files
  else match parts with
       | PyList l => filter_parts l files
       | _ => match files with
              | [] => Ok []
              | f :: _ =>
                  match part_number f with
                  | Raise e => Raise e
                  | Ok _ => Raise (TypeError "argument is not iterable")
                  end
              end
       end.

(** The loop of lines 169-182: the keys handed to the pool, in order. *)
Fixpoint submit_files (w : world) (files : list string) : M (list string) :=
  match files with
  | [] => ret []
  | f :: rest =>
      emit (HeadObject f) ;;;
      match head_object w f with
      | Ok file_sz =>
          futures <-- submit_files w rest ;;
          ret (f :: futures)
      | Raise e =>
          progress_log ("[bold red] ERROR getting size for " ++ f ++ ": "
                        ++ exn_str e ++ "[/bold red]") ;;;
          submit_files w rest
      end
  end.

(** A task of the pool: what [__copy_data] raises stays in its future,
    which nobody reads. *)
Definition run_task (w : world) (download_dir key : string) : M unit :=
  fun st => (Ok tt, snd (copy_data w key download_dir st)).

(** The pool, run in the order of submission (each download writes its
    file in one piece, so another order changes the outcome only when
    two keys share a local name). *)
Fixpoint run_pool (w : world) (download_dir : string) (futures : list string) : M unit :=
  match futures with
  | [] => ret tt
  | key :: rest => run_task w download_dir key ;;; run_pool w download_dir rest
  end.

Definition download_files (w : world) (obj_type : string)
    (start_date end_date parts : pyval) (download_dir : string) : M unit :=
  files <-- get_files w obj_type start_date end_date ;;
  files <-- lift (select_parts parts files) ;;
  futures <-- submit_files w files ;;
  run_pool w download_dir futures.

(** *** The DuckDB connection *)

Definition count_tables (t : string) (cat : list table) : nat :=
  List.length (List.filter (fun tb => String.eqb (table_name tb) t) cat).

Definition kind_eqb (a b : table_kind) : bool :=
  match a, b with
  | Temporary, Temporary | Persistent, Persistent => true
  | _, _ => false
  end.

(** A table of that name in the schema a [CREATE] of kind [k] writes to
    (the temporary schema or the main one). *)
Definition has_table (k : table_kind) (t : string) (cat : list table) : bool :=
  existsb (fun tb => (String.eqb (table_name tb) t
                      && kind_eqb (table_kind_of tb) k)%bool) cat.

(** [INSERT INTO t]: the rows go to the first table of that name. *)
Fixpoint insert_rows (t : string) (new : list string) (cat : list table)
  : option (list table) :=
  match cat with
  | [] => None
  | tb :: rest =>
      if String.eqb (table_name tb) t
      then Some (mktable (table_name tb) (table_kind_of tb) (table_rows tb ++ new) :: rest)
      else cons tb <$> insert_rows t new rest
  end.

(** [self.__conn.execute(sql_query)] for the three statements of
    [load_table]: the select is read first; a statement that raises
    leaves the catalog as it was.  [CREATE] is refused when its schema
    already holds a table of that name. *)
Definition conn_execute (w : world) (s : stmt) : M unit :=
  st <-- get_state ;;
  let files := default ∅ (fs st !! sel_dir (stmt_select s)) in
  match read_ndjson_auto w (stmt_select s) files with
  | Raise e => emit (Execute s None) ;;; raise e
  | Ok rs =>
      match s with
      | InsertInto t _ =>
          match insert_rows t rs (catalog st) with
          | Some cat' =>
              set_catalog cat' ;;; emit (Execute s (Some (List.length rs)))
          | None =>
              emit (Execute s None) ;;;
              raise (DuckDBError ("Catalog Error: Table with name " ++ t
                                  ++ " does not exist!"))
          end
      | CreateTableAs k t _ =>
          if has_table k t (catalog st) then
            emit (Execute s None) ;;;
            raise (DuckDBError ("Catalog Error: Table with name " ++ t
                                ++ " already exists!"))
          else
            set_catalog (catalog st ++ [mktable t k rs]) ;;;
            emit (Execute s (Some (List.length rs)))
      end
  end.

(** [SELECT count( * ) FROM duckdb_tables() WHERE table_name='{obj_type}'],
    [.fetchone()[0] > 0] (lines 275-280). *)
Definition table_exists (obj_type : string) : M bool :=
  emit (QueryTables obj_type) ;;;
  st <-- get_state ;;
  ret (0 <? count_tables obj_type (catalog st))%nat.

(** *** [os.makedirs(download_dir, exist_ok=True)] and [shutil.rmtree] *)

(** The paths [os.makedirs] refuses whatever the file system holds: the
    empty path ([FileNotFoundError], an [OSError]) and a path with a NUL
    character.  A refusal that depends on the machine (permissions, a
    file in the way, a name too long for the file system) is outside
    this development. *)
Definition makedirs_refusal (dir : string) : option exn :=
  if String.eqb dir "" then Some (OSError "[Errno 2] No such file or directory: ''")
  else if has_char zero dir then Some (ValueError "embedded null byte")
  else None.

Definition makedirs (dir : string) : M unit :=
  emit (MakeDirs dir) ;;;
  match makedirs_refusal dir with
  | Some e => raise e
  | None =>
      st <-- get_state ;;
      match fs st !! dir with
      | Some _ => ret tt
      | None => set_fs (<[dir := ∅]> (fs st))
      end
  end.

Definition rmtree (dir : string) : M unit :=
  emit (RmTree dir) ;;;
  st <-- get_state ;;
  match fs st !! dir with
  | Some _ => set_fs (delete dir (fs st))
  | None => raise (OSError ("No such file or directory: '" ++ dir ++ "'"))
  end.

(** *** [load_table] (lines 185-300) *)

Record load_args : Type := mkargs {
  obj_type : pyval;
  cols : pyval;          (* None when omitted *)
  limit : pyval;
  start_date : pyval;
  end_date : pyval;
  parts : pyval;
  download_dir : string
}.

(** A call that names only [obj_type]: the defaults of the signature. *)
Definition default_args (obj_type : pyval) : load_args :=
  mkargs obj_type PyNone PyNone PyNone PyNone PyNone "./.cache/oa".

Definition accepted_types : list string :=
  ["works"; "authors"; "sources"; "institutions"; "topics"; "keywords";
   "publishers"; "funders"; "geo"].

(** [if cond: raise e] *)
Definition raise_if (cond : bool) (e : exn) : M unit :=
  if cond then raise e else ret tt.

(** [start_date is not None and not self.__check_date_fmt(start_date)] *)
Definition bad_date_fmt (v : pyval) : M bool :=
  if is_none v then ret false
  else ok <-- lift (check_date_fmt v) ;; ret (negb ok).

(** [not all([isinstance(x, T) for x in v])] *)
Definition not_all (isinstance_T : pyval -> bool) (v : pyval) : bool :=
  match v with
  | PyList l => negb (forallb isinstance_T l)
  | _ => false
  end.

(** Lines 195-249; the value is [obj_type] as a [str]. *)
Definition validate (a : load_args) : M string :=
  ot <-- match obj_type a with
         | PyStr s => ret s
         | v => raise (AssertionError
                         ("Expected obj_type to be str. Found " ++ type_str v))
         end ;;
  raise_if (negb (existsb (String.eqb ot) accepted_types))
    (AssertionError ("Expected obj_type to either " ++ join "/" accepted_types
                     ++ ". Found " ++ ot)) ;;;
  raise_if (negb (is_none (start_date a)) && negb (isinstance_str (start_date a)))
    (ValueError ("Expected start_date to be of type 'str'. Found type "
                 ++ type_str (start_date a))) ;;;
  raise_if (negb (is_none (end_date a)) && negb (isinstance_str (end_date a)))
    (ValueError ("Expected end_date to be of type 'str'. Found type "
                 ++ type_str (end_date a))) ;;;
  bad <-- bad_date_fmt (start_date a) ;;
  raise_if bad (ValueError "Expected end_date of the format 'YYYY-mm-dd'") ;;;
  bad <-- bad_date_fmt (end_date a) ;;
  raise_if bad (ValueError "Expected end_date of the format 'YYYY-mm-dd'") ;;;
  raise_if (negb (is_none (parts a)) && negb (isinstance_list (parts a)))
    (ValueError ("Expected parts to be of type 'list'. Found "
                 ++ type_str (parts a))) ;;;
  raise_if (negb (is_none (parts a)) && not_all isinstance_int (parts a))
    (ValueError "Expected parts to be a list of integers.") ;;;
  raise_if (negb (is_none (cols a)) && negb (isinstance_list (cols a)))
    (ValueError ("Expected cols to be of type 'list'. Found type "
                 ++ type_str (cols a))) ;;;
  raise_if (negb (is_none (cols a)) && not_all isinstance_str (cols a))
    (ValueError "Expected cols to be of type 'list<str>'") ;;;
  raise_if (negb (is_none (limit a)) && negb (isinstance_int (limit a)))
    (ValueError ("Expected limit to be of type 'int'. Found type "
                 ++ type_str (limit a))) ;;;
  ret ot.

(** The statement of lines 282-294. *)
Definition sql_query (self : OpenAlexParser) (exists_ : bool) (ot : string)
    (sel : select_clause) : stmt :=
  if exists_ then InsertInto ot sel
  else match persist_path self with
       | None => CreateTableAs Temporary ot sel
       | Some _ => CreateTableAs Persistent ot sel
       end.

(** Lines 273-298, from the select clause to the removal of the staging
    directory. *)
Definition create_table (self : OpenAlexParser) (w : world) (ot : string)
    (cols limit : pyval) (download_dir : string) : M unit :=
  let select_clause := mkselect cols download_dir (get_schema w ot) limit in
  exists_ <-- table_exists ot ;;
  conn_execute w (sql_query self exists_ ot select_clause) ;;;
  rmtree download_dir.

(** Lines 253-256: the values used when an argument was omitted. *)
Definition parts_or_default (a : load_args) : pyval :=
  if is_none (parts a) then PyStr "*" else parts a.

Definition cols_or_default (a : load_args) : pyval :=
  if is_none (cols a) then PyStr "*" else cols a.

Definition end_date_or_default (w : world) (a : load_args) : pyval :=
  if is_none (end_date a) then PyDate (today w) else end_date a.

Definition start_date_or_default (self : OpenAlexParser) (w : world)
    (a : load_args) : M pyval :=
  if is_none (start_date a) then get_start_date self w else ret (start_date a).

(** Lines 195-267: validation, the staging directory, the defaults and
    the downloads; the value is [obj_type] as a [str]. *)
Definition stage (self : OpenAlexParser) (w : world) (a : load_args) : M string :=
  ot <-- validate a ;;
  makedirs (download_dir a) ;;;
  let parts := parts_or_default a in
  start_date <-- start_date_or_default self w a ;;
  let end_date := end_date_or_default w a in
  download_files w ot start_date end_date parts (download_dir a) ;;;
  ret ot.

Definition load_table (self : OpenAlexParser) (w : world) (a : load_args) : M unit :=
  ot <-- stage self w a ;;
  create_table self w ot (cols_or_default a) (limit a) (download_dir a).

(** A caller that makes one call after another on the same connection,
    each against the world of its moment, and goes on after a call that
    raised. *)
Fixpoint run_loads (self : OpenAlexParser) (calls : list (world * load_args))
    (st : state) : state :=
  match calls with
  | [] => st
  | (w, a) :: rest => run_loads self rest (snd (load_table self w a st))
  end.

(** *** [get_table] (lines 302-336) *)

(** What [self.__conn.sql(...)] hands back: the relation [SELECT {cols}
    FROM {obj_type}], kept as the values its text is formatted from,
    with the rows it answers with. *)
Record relation : Type := mkrelation {
  rel_cols : pyval;
  rel_table : string;
  rel_source : list string
}.

(** The table a name resolves to: the first of that name, as for
    [INSERT INTO]. *)
Definition first_table (t : string) (cat : list table) : option table :=
  List.find (fun tb => String.eqb (table_name tb) t) cat.

(** [self.__conn.sql(f"SELECT {cols} FROM {obj_type}")]: the query is
    bound when the relation is made, so a name without a table raises
    here, and so does a select list DuckDB refuses.  [SELECT *] answers
    with the rows of the table; nothing is written. *)
Definition conn_sql (w : world) (cols : pyval) (t : string) : M relation :=
  st <-- get_state ;;
  match first_table t (catalog st) with
  | Some tb =>
      if is_star cols then ret (mkrelation cols t (table_rows tb))
      else
        rows <-- lift (select_list w cols (table_rows tb)) ;;
        ret (mkrelation cols t rows)
  | None =>
      raise (DuckDBError ("Catalog Error: Table with name " ++ t
                          ++ " does not exist!"))
  end.

Definition get_table (self : OpenAlexParser) (w : world) (obj_type cols : pyval)
  : M relation :=
  ot <-- match obj_type with
         | PyStr s => ret s
         | v => raise (AssertionError
                         ("Expected obj_type to be str. Found " ++ type_str v))
         end ;;
  raise_if (negb (existsb (String.eqb ot) accepted_types))
    (AssertionError ("Expected obj_type to either " ++ join "/" accepted_types
                     ++ ". Found " ++ ot)) ;;;
  raise_if (negb (is_none cols) && negb (isinstance_list cols))
    (ValueError ("Expected cols to be of type 'list'. Found type "
                 ++ type_str cols)) ;;;
  raise_if (negb (is_none cols) && not_all isinstance_str cols)
    (ValueError "Expected cols to be of type 'list<str>'") ;;;
  let cols := if is_none cols then PyStr "*" else cols in
  conn_sql w cols ot.

(* ===================================================================== *)
(** ** Vocabulary of the specification                                    *)
(* ===================================================================== *)

(** The keys of a listing, page after page. *)
Definition listed_keys (pages : list page) : list string :=
  List.map Key (List.concat (List.map page_contents pages)).

(** The calendar date a key carries, if its extracted text is one. *)
Definition key_date (key : string) : option date :=
  fromisoformat (extract_date key).

(** [startDate <= d <= endDate] for the date [d] of the key; a key
    without a date is not in range. *)
Definition in_range (sd ed : date) (key : string) : bool :=
  match key_date key with
  | Some d => (date_le sd d && date_le d ed)%bool
  | None => false
  end.

(** The selection the specification describes for [filesInRange]. *)
Definition files_in_range_spec (sd ed : date) (pages : list page) : list string :=
  List.filter (in_range sd ed)
    (List.filter (fun k => negb (is_manifest k)) (listed_keys pages)).

(** The shape [YYYY-MM-DD] of the specification's pattern: four digits,
    two digits, two digits. *)
Definition ymd_shape (s : string) : bool :=
  match s with
  | String y1 (String y2 (String y3 (String y4 (String "-"
      (String m1 (String m2 (String "-" (String d1 (String d2 EmptyString))))))))) =>
      (is_digit y1 && is_digit y2 && is_digit y3 && is_digit y4 &&
       is_digit m1 && is_digit m2 && is_digit d1 && is_digit d2)%bool
  | _ => false
  end.

(** The specification's pattern [updated_date=YYYY-MM-DD] at the head of
    [s]: the date text. *)
Definition ymd_here (s : string) : option string :=
  match strip_prefix "updated_date=" s with
  | Some r => if ymd_shape (take_str 10 r) then Some (take_str 10 r) else None
  | None => None
  end.

(** Every date text that follows [updated_date=] somewhere in [s], in
    the shape [YYYY-MM-DD], from left to right. *)
Fixpoint ymd_occurrences (s : string) : list string :=
  match ymd_here s with Some d => [d] | None => [] end ++
  match s with
  | EmptyString => []
  | String _ s' => ymd_occurrences s'
  end.

(** The sentence of the specification about [extractDate], read with
    the pattern as written: a key that holds the pattern gives a date it
    holds, a key that does not gives the empty text. *)
Definition extract_date_as_specified (key : string) : Prop :=
  match ymd_occurrences key with
  | [] => extract_date key = ""
  | ds => In (extract_date key) ds
  end.

(** The minimum of a list of dates below a bound, as the specification
    words [earliestDate]. *)
Fixpoint min_date_below (bound : date) (ds : list date) : option date :=
  match ds with
  | [] => None
  | d :: rest =>
      match min_date_below bound rest with
      | Some m =>
          if (date_lt d bound && date_lt d m)%bool then Some d else Some m
      | None => if date_lt d bound then Some d else None
      end
  end.

(** The valid dates of the non-manifest keys of a listing. *)
Definition listed_dates (pages : list page) : list date :=
  omap key_date
    (List.filter (fun k => negb (is_manifest k)) (listed_keys pages)).

(** The statements that wrote to table [t] and the number of rows each
    wrote, oldest first, as the I/O trace records them: one entry for
    each call of [load_table] on [t] that returned. *)
Fixpoint writes_of (t : string) (tr : list io_event) : list (stmt * nat) :=
  match tr with
  | [] => []
  | Execute s (Some n) :: rest =>
      if String.eqb (stmt_table s) t then (s, n) :: writes_of t rest
      else writes_of t rest
  | _ :: rest => writes_of t rest
  end.

Definition is_create (k : table_kind) (t : string) (q : stmt) : bool :=
  match q with
  | CreateTableAs k' t' _ => (kind_eqb k' k && String.eqb t' t)%bool
  | InsertInto _ _ => false
  end.

Definition is_insert (t : string) (q : stmt) : bool :=
  match q with
  | InsertInto t' _ => String.eqb t' t
  | CreateTableAs _ _ _ => false
  end.

(** The keys whose download was started, oldest first. *)
Fixpoint downloads_of (tr : list io_event) : list string :=
  match tr with
  | [] => []
  | DownloadFile key _ :: rest => key :: downloads_of rest
  | _ :: rest => downloads_of rest
  end.

(** The tables of a given name. *)
Definition tables_named (t : string) (cat : list table) : list table :=
  List.filter (fun tb => String.eqb (table_name tb) t) cat.

(** The files of a directory (none when it is not there). *)
Definition files_of (st : state) (dir : string) : gmap string string :=
  default ∅ (fs st !! dir).

(** [needle in s] *)
Fixpoint contains (needle s : string) : bool :=
  match strip_prefix needle s with
  | Some _ => true
  | None =>
      match s with
      | EmptyString => false
      | String _ s' => contains needle s'
      end
  end.

(** A non-empty run of decimal digits. *)
Definition digit_run (ds : string) : Prop := all_digits ds = true /\ ds <> "".

(** [y-m-d] *)
Definition date_text (y m d : string) : string := y ++ "-" ++ m ++ "-" ++ d.

(** *** Sample data: a listing of the bucket's layout *)

Definition key_0804 : string := "data/works/updated_date=2025-08-04/part_000.gz".
Definition key_0805 : string := "data/works/updated_date=2025-08-05/part_000.gz".
Definition key_0806 : string := "data/works/updated_date=2025-08-06/part_001.gz".
Definition key_manifest : string := "data/works/manifest".
(** A key under the prefix that carries no date. *)
Definition key_readme : string := "data/works/README.txt".
(** A key whose digits are not a calendar date. *)
Definition key_month13 : string := "data/works/updated_date=2025-13-01/part_000.gz".
(** A key that sorts before the dated folders. *)
Definition key_legacy : string := "data/works/legacy/updated_date=2025-08-05/part_000.gz".

Definition pages_of (keys : list string) : list page :=
  [mkpage (Some (List.map mkobj keys))].

(** A world whose bucket lists [pages] under [data/works/], whose
    metadata lookup fails for the keys in [no_head], whose reader
    returns one record per staged file and refuses an empty glob, as
    DuckDB does, and which answers a select list with one list value
    for each row. *)
Definition sample_world (pages : list page) (no_head : list string) : world :=
  mkworld (mkdate 2025 8 10)
    (fun prefix => if String.eqb prefix "data/works/" then pages else [])
    (fun key => if existsb (String.eqb key) no_head
                then Raise (ClientError "Not Found") else Ok 1024)
    (fun key => Ok ("{record of " ++ key ++ "}"))
    (fun sel files =>
       if decide (files = ∅)
       then Raise (DuckDBError "IO Error: No files found that match the pattern")
       else Ok (snd <$> map_to_list files))
    (fun cols rows => Ok (List.map (fun _ => "[...]") rows))
    "{'id': 'VARCHAR'}".

Definition empty_state : state := mkstate ∅ [] [] [].

(** [load_table(obj_type="works", start_date=s, end_date=e)] *)
Definition works_between (s e : string) : load_args :=
  mkargs (PyStr "works") PyNone PyNone (PyStr s) (PyStr e) PyNone "./.cache/oa".

(** A key the loop of [__get_files] can pass: a manifest, or a key whose
    extracted text is a calendar date. *)
Definition passable (key : string) : bool :=
  (is_manifest key || bool_decide (is_Some (key_date key)))%bool.

(** The arguments the specification accepts: an entity type of the
    fixed set; dates omitted or texts [date.fromisoformat] reads;
    [parts] omitted or a list of integers; [cols] omitted or a list of
    strings; [limit] omitted or an integer. *)
Definition iso_or_none (v : pyval) : bool :=
  match v with
  | PyNone => true
  | PyStr s => match fromisoformat s with Some _ => true | None => false end
  | _ => false
  end.

Definition list_of_or_none (isinstance_T : pyval -> bool) (v : pyval) : bool :=
  match v with
  | PyNone => true
  | PyList l => forallb isinstance_T l
  | _ => false
  end.

Definition args_valid (a : load_args) : bool :=
  (match obj_type a with
   | PyStr s => existsb (String.eqb s) accepted_types
   | _ => false
   end
   && iso_or_none (start_date a) && iso_or_none (end_date a)
   && list_of_or_none isinstance_int (parts a)
   && list_of_or_none isinstance_str (cols a)
   && (is_none (limit a) || isinstance_int (limit a)))%bool.

(** [load_table(obj_type="works", start_date="08-04-2025")] *)
Definition works_from_bad_date : load_args :=
  mkargs (PyStr "works") PyNone PyNone (PyStr "08-04-2025") PyNone PyNone
         "./.cache/oa".

(** [load_table(obj_type="works", start_date="2025-08-04")] *)
Definition works_from (s : string) : load_args :=
  mkargs (PyStr "works") PyNone PyNone (PyStr s) PyNone PyNone "./.cache/oa".

(** A computation that neither reads nor writes the state. *)
Definition stateless {A} (m : M A) : Prop :=
  exists r, forall st, m st = (r, st).

(** What the steps of [stage] leave alone: the tables, the writes
    recorded in the trace, and the directories that are there. *)
Definition stage_frame (st st' : state) : Prop :=
  catalog st' = catalog st /\
  (forall t, writes_of t (trace st') = writes_of t (trace st)) /\
  (forall d, is_Some (fs st !! d) -> is_Some (fs st' !! d)).

Definition preserves {A} (R : state -> state -> Prop) (m : M A) : Prop :=
  forall st, R st (snd (m st)).

(** The kind of table [load_table] creates on this instance. *)
Definition kind_for (self : OpenAlexParser) : table_kind :=
  match persist_path self with None => Temporary | Some _ => Persistent end.

(** The catalog after a successful load statement for [ot] that read
    [rs]: appended to the table of that name, or a new table. *)
Definition stored (self : OpenAlexParser) (ot : string) (rs : list string)
    (cat : list table) : list table :=
  match insert_rows ot rs cat with
  | Some cat' => cat'
  | None => cat ++ [mktable ot (kind_for self) rs]
  end.

(** The rows held under the name [t]. *)
Definition rows_of (t : string) (cat : list table) : list string :=
  List.concat (List.map table_rows (tables_named t cat)).

(** The metadata lookup of a key succeeds. *)
Definition head_ok (w : world) (key : string) : bool := is_ok (head_object w key).

(** The lines [progress.log] gets for the keys whose lookup fails. *)
Fixpoint size_errors (w : world) (files : list string) : list string :=
  match files with
  | [] => []
  | f :: rest =>
      match head_object w f with
      | Ok _ => size_errors w rest
      | Raise e =>
          ("[bold red] ERROR getting size for " ++ f ++ ": "
           ++ exn_str e ++ "[/bold red]") :: size_errors w rest
      end
  end.

(** The select clause and the statement of a call, given whether the
    table is there. *)
Definition select_of (w : world) (a : load_args) (ot : string) : select_clause :=
  mkselect (cols_or_default a) (download_dir a) (get_schema w ot) (limit a).

Definition statement_of (self : OpenAlexParser) (w : world) (a : load_args)
    (ot : string) (st : state) : stmt :=
  sql_query self (0 <? count_tables ot (catalog st))%nat ot (select_of w a ot).

(** The state in which the statement runs: after the catalog query. *)
Definition queried (ot : string) (st : state) : state :=
  mkstate (fs st) (catalog st) (log st) (trace st ++ [QueryTables ot]).

Definition sample_parser : OpenAlexParser := init 4 None.

(** A bucket with one manifest and two dated files, none of them in
    January. *)
Definition august_world : world :=
  sample_world (pages_of [key_manifest; key_0804; key_0805]) [].

(** [load_table(obj_type="works", start_date="2025-01-01",
    end_date="2025-01-02")]: an empty date window. *)
Definition january_call : load_args := works_between "2025-01-01" "2025-01-02".

(** Three files in the window; the size of the second cannot be read. *)
Definition three_files : list string := [key_0804; key_0805; key_0806].

Definition lossy_world : world :=
  sample_world (pages_of (key_manifest :: three_files)) [key_0805].

Definition august_call : load_args := works_between "2025-08-04" "2025-08-06".

(** Two calls on an instance with a database file, the second with a
    malformed date. *)
Definition persistent_parser : OpenAlexParser := init 4 (Some "./db/openalex.duckdb").

Definition two_loads : list (world * load_args) :=
  [(august_world, works_between "2025-08-04" "2025-08-04");
   (august_world, works_from_bad_date);
   (august_world, works_between "2025-08-05" "2025-08-05")].

(** A key the loop of [__get_start_date] can pass: a manifest, a key in
    which the pattern finds nothing, or a key whose extracted text is a
    calendar date. *)
Definition startable (key : string) : bool :=
  (is_manifest key || String.eqb (extract_date key) ""
   || bool_decide (is_Some (key_date key)))%bool.

(** Dates in listing order that never go back. *)
Fixpoint nondecreasing (ds : list date) : bool :=
  match ds with
  | d1 :: ((d2 :: _) as rest) => (date_le d1 d2 && nondecreasing rest)%bool
  | _ => true
  end.

(** The valid dates of the non-manifest keys among [keys]. *)
Definition dates_of (keys : list string) : list date :=
  omap key_date (List.filter (fun k => negb (is_manifest k)) keys).

(** The exceptions validation raises. *)
Definition is_assertion_or_value_error (e : exn) : bool :=
  match e with AssertionError _ | ValueError _ => true | _ => false end.


(** [load_table(obj_type="bogus")] *)
Definition bogus_call : load_args := default_args (PyStr "bogus").

(** A state in which an earlier call left a file in the staging
    directory. *)
Definition leftover_state : state :=
  mkstate {[ "./.cache/oa" := {[ "updated_date=2025-07-01_part_000.gz" := "{old record}" ]} ]}
          [] [] [].

(** The part number of a key is one of [parts]; a key without a part
    number is in no list. *)
Definition part_in (parts : list pyval) (f : string) : bool :=
  match part_number f with
  | Ok n => existsb (py_eq_int n) parts
  | Raise _ => false
  end.

Definition numbered (f : string) : bool := is_ok (part_number f).

(** A dated key that is not a part file. *)
Definition key_marker : string := "data/works/updated_date=2025-08-04/_SUCCESS".

(** The script at the end of the module (lines 339-343): one load, then
    the table. *)
Definition main (w : world) : M relation :=
  let oaparser := init 4 None in
  load_table oaparser w (works_between "2025-08-04" "2025-08-05") ;;;
  get_table oaparser w (PyStr "works") PyNone.

(** What the download of [key] adds to the files of the staging
    directory: the bytes of the key under its local name, or nothing
    when the download fails. *)
Definition staged_file (w : world) (files : gmap string string) (key : string)
  : gmap string string :=
  match download_file w key with
  | Ok body => <[local_name key := body]> files
  | Raise _ => files
  end.

(** The files of the staging directory after the downloads of [keys],
    one after the other, over the files that were there. *)
Definition staged (w : world) (keys : list string) (files : gmap string string)
  : gmap string string :=
  List.fold_left (staged_file w) keys files.

(** The rows the reader returns for the staging directory as the
    downloads of a call leave it: what the statement of the call writes
    when it gets through. *)
Definition rows_read (self : OpenAlexParser) (w : world) (a : load_args)
    (st : state) : list string :=
  match stage self w a st with
  | (Ok ot, st1) =>
      match read_ndjson_auto w (select_of w a ot) (files_of st1 (download_dir a)) with
      | Ok rs => rs
      | Raise _ => []
      end
  | (Raise _, _) => []
  end.

(** What one call adds to the loads of [t]: itself, when it returned and
    its entity type is [t]. *)
Definition load_done (self : OpenAlexParser) (t : string) (w : world)
    (a : load_args) (st : state) : list (stmt * list string) :=
  match fst (load_table self w a st), stage self w a st with
  | Ok _, (Ok ot, st1) =>
      if String.eqb ot t
      then [(statement_of self w a ot st1, rows_read self w a st)] else []
  | _, _ => []
  end.

(** The calls of [load_table] for entity type [t] that returned, oldest
    first, each against the state the calls before it left: the
    statement the call ran and the rows it read. *)
Fixpoint loads_done (self : OpenAlexParser) (t : string)
    (calls : list (world * load_args)) (st : state) : list (stmt * list string) :=
  match calls with
  | [] => []
  | (w, a) :: rest =>
      (load_done self t w a st
       ++ loads_done self t rest (snd (load_table self w a st)))%list
  end.



(** The number a run of decimal digits writes, most significant first,
    after the digits already read as [acc]. *)
Fixpoint decimal (acc : Z) (ds : string) : Z :=
  match ds with
  | EmptyString => acc
  | String c ds' => decimal (10 * acc + digit_val c) ds'
  end.

(* ===================================================================== *)
(** * Properties                                                          *)
(* ===================================================================== *)

(** ** Strings *)

Local Arguments String.append !s1 s2 : simpl nomatch.

Lemma append_assoc (a b c : string) : (a ++ b) ++ c = a ++ (b ++ c).
Proof. induction a as [|x a IH]; simpl; [reflexivity | now rewrite IH]. Qed.

Lemma append_nil_r (a : string) : a ++ "" = a.
Proof. induction a as [|x a IH]; simpl; [reflexivity | now rewrite IH]. Qed.

Lemma length_append (a b : string) :
  String.length (a ++ b) = (String.length a + String.length b)%nat.
Proof. induction a as [|x a IH]; simpl; [reflexivity | now rewrite IH]. Qed.

Lemma take_str_append (a b : string) : take_str (String.length a) (a ++ b) = a.
Proof. induction a as [|x a IH]; simpl; [now destruct b | now rewrite IH]. Qed.

Lemma strip_prefix_append (p s : string) : strip_prefix p (p ++ s) = Some s.
Proof.
  induction p as [|x p IH]; simpl; [reflexivity |].
  now rewrite Ascii.eqb_refl.
Qed.

Lemma strip_prefix_Some (p s r : string) : strip_prefix p s = Some r -> s = p ++ r.
Proof.
  revert s; induction p as [|x p IH]; intros s H; simpl in *.
  - now inversion H.
  - destruct s as [|y s]; [discriminate |].
    destruct (Ascii.eqb_spec x y) as [->|]; [|discriminate].
    simpl. f_equal. now apply IH.
Qed.

Lemma all_digits_append (a b : string) :
  all_digits (a ++ b) = (all_digits a && all_digits b)%bool.
Proof.
  induction a as [|x a IH]; simpl; [reflexivity |].
  now rewrite IH, andb_assoc.
Qed.

(** ** The pattern *)

Lemma plus_digits_nondigit {A} (s : string) (k : string -> option A) :
  starts_with_digit s = false -> plus_digits s k = None.
Proof. destruct s as [|c s]; simpl; [reflexivity | now intros ->]. Qed.

(** Greedy [+] stops where the digits stop, as soon as the continuation
    cannot use a shorter run. *)
Lemma plus_digits_run {A} (ds rest : string) (k : string -> option A) :
  digit_run ds ->
  starts_with_digit rest = false ->
  (k rest = None -> forall t, starts_with_digit t = true -> k t = None) ->
  plus_digits (ds ++ rest) k = k rest.
Proof.
  intros [Hd Hne] Hrest Hk.
  induction ds as [|c ds IH]; [congruence |].
  simpl in Hd. apply andb_prop in Hd as [Hc Hd].
  simpl. rewrite Hc.
  destruct ds as [|c' ds].
  - simpl. rewrite (plus_digits_nondigit rest k Hrest). reflexivity.
  - rewrite IH by (try assumption; discriminate).
    destruct (k rest) eqn:E; [reflexivity |].
    apply Hk; [reflexivity |].
    simpl in Hd. simpl. now apply andb_prop in Hd as [-> _].
Qed.

Lemma plus_digits_inv {A} (s : string) (k : string -> option A) (r : A) :
  plus_digits s k = Some r ->
  exists ds rest, s = ds ++ rest /\ digit_run ds /\ k rest = Some r.
Proof.
  induction s as [|c s IH]; simpl; [discriminate |].
  destruct (is_digit c) eqn:Hc; [|discriminate].
  destruct (plus_digits s k) eqn:E.
  - intros [= ->]. destruct (IH eq_refl) as (ds & rest & -> & [Hd Hne] & Hk).
    exists (String c ds), rest. repeat split; try assumption.
    + simpl. now rewrite Hc, Hd.
    + discriminate.
  - intros Hk. exists (String c ""), s. repeat split; try assumption.
    + simpl. now rewrite Hc.
    + discriminate.
Qed.

Lemma digit_not_dash (t : string) :
  starts_with_digit t = true -> strip_prefix "-" t = None.
Proof.
  destruct t as [|c t]; [discriminate |]. intros H.
  cbn [strip_prefix starts_with_digit] in *.
  destruct (Ascii.eqb "-" c) eqn:E; [|reflexivity].
  apply Ascii.eqb_eq in E as <-. discriminate H.
Qed.

(** The date part of the pattern on three digit runs: it takes all of
    them, the last one as far as the digits go. *)
Lemma match_date_re {A} (y m d post : string) (f : string -> A) :
  digit_run y -> digit_run m -> digit_run d ->
  starts_with_digit post = false ->
  match_re date_re (date_text y m d ++ post) (fun s => Some (f s)) = Some (f post).
Proof.
  intros Hy Hm Hd Hpost. unfold date_text, date_re.
  rewrite !append_assoc. cbn [match_re].
  rewrite plus_digits_run;
    [ | assumption | reflexivity
      | intros _ t Ht; cbv beta; now rewrite digit_not_dash ].
  rewrite strip_prefix_append.
  rewrite plus_digits_run;
    [ | assumption | reflexivity
      | intros _ t Ht; cbv beta; now rewrite digit_not_dash ].
  rewrite strip_prefix_append.
  rewrite plus_digits_run; [reflexivity | assumption | assumption | discriminate].
Qed.

Lemma match_date_re_inv {A} (s : string) (k : string -> option A) (r : A) :
  match_re date_re s k = Some r ->
  exists y m d post,
    s = date_text y m d ++ post /\ digit_run y /\ digit_run m /\ digit_run d /\
    k post = Some r.
Proof.
  unfold date_re. cbn [match_re]. intros H.
  apply plus_digits_inv in H as (y & r1 & -> & Hy & H).
  destruct (strip_prefix "-" r1) as [r2|] eqn:E1; [|discriminate].
  apply strip_prefix_Some in E1 as ->.
  apply plus_digits_inv in H as (m & r3 & -> & Hm & H).
  destruct (strip_prefix "-" r3) as [r4|] eqn:E2; [|discriminate].
  apply strip_prefix_Some in E2 as ->.
  apply plus_digits_inv in H as (d & post & -> & Hd & H).
  exists y, m, d, post. unfold date_text. rewrite !append_assoc.
  repeat split; try apply Hy; try apply Hm; try apply Hd; assumption.
Qed.

(** The whole pattern at the head of a text. *)
Lemma match_here_date (y m d post : string) :
  digit_run y -> digit_run m -> digit_run d ->
  starts_with_digit post = false ->
  match_here ("updated_date=" ++ date_text y m d ++ post) = Some (date_text y m d).
Proof.
  intros Hy Hm Hd Hpost. unfold match_here.
  cbn [match_re]. rewrite strip_prefix_append.
  rewrite (match_date_re y m d post
             (fun s2 => take_str (String.length (date_text y m d ++ post)
                                  - String.length s2) (date_text y m d ++ post)))
    by assumption.
  f_equal. rewrite length_append.
  replace (String.length (date_text y m d) + String.length post
           - String.length post)%nat
    with (String.length (date_text y m d)) by lia.
  apply take_str_append.
Qed.

Lemma match_here_inv (s g : string) :
  match_here s = Some g ->
  exists y m d post,
    s = "updated_date=" ++ date_text y m d ++ post /\
    g = date_text y m d /\ digit_run y /\ digit_run m /\ digit_run d.
Proof.
  unfold match_here. cbn [match_re].
  destruct (strip_prefix "updated_date=" s) as [s1|] eqn:E; [|discriminate].
  apply strip_prefix_Some in E as ->. intros H.
  apply match_date_re_inv in H as (y & m & d & post & -> & Hy & Hm & Hd & H).
  exists y, m, d, post. split; [reflexivity |]. split; [| auto].
  inversion H as [H1]. rewrite length_append.
  replace (String.length (date_text y m d) + String.length post
           - String.length post)%nat
    with (String.length (date_text y m d)) by lia.
  now rewrite take_str_append.
Qed.

(** *** Where a match can start *)

Lemma has_char_append (c : ascii) (a b : string) :
  has_char c (a ++ b) = (has_char c a || has_char c b)%bool.
Proof.
  induction a as [|x a IH]; [reflexivity |].
  cbn [String.append has_char]. rewrite IH. now rewrite orb_assoc.
Qed.

Lemma all_digits_no_u (s : string) : all_digits s = true -> has_char "u" s = false.
Proof.
  induction s as [|x s IH]; [reflexivity |].
  cbn [all_digits has_char]. intros H. apply andb_prop in H as [Hx Hs].
  rewrite (IH Hs), orb_false_r.
  destruct (Ascii.eqb x "u") eqn:E; [|reflexivity].
  apply Ascii.eqb_eq in E as ->. discriminate Hx.
Qed.

Lemma date_text_no_u (y m d : string) :
  digit_run y -> digit_run m -> digit_run d -> has_char "u" (date_text y m d) = false.
Proof.
  intros [Hy _] [Hm _] [Hd _]. unfold date_text.
  rewrite !has_char_append.
  rewrite (all_digits_no_u y Hy), (all_digits_no_u m Hm), (all_digits_no_u d Hd).
  reflexivity.
Qed.

Lemma date_text_nonempty (y m d : string) : digit_run y -> date_text y m d <> "".
Proof.
  intros [_ Hy]. unfold date_text. destruct y; [congruence | discriminate].
Qed.

(** Two ways to cut the same text: one cut is inside the other's left
    part. *)
Lemma append_eq_append (p t a b : string) :
  p ++ t = a ++ b ->
  (exists p', p = a ++ p' /\ b = p' ++ t) \/
  (exists x a', a = p ++ String x a' /\ t = String x a' ++ b).
Proof.
  revert a; induction p as [|c p IH]; intros a H.
  - destruct a as [|x a].
    + left. exists "". now split.
    + right. exists x, a. now split.
  - destruct a as [|x a].
    + left. exists (String c p). now split.
    + cbn [String.append] in H. injection H as -> H.
      destruct (IH a H) as [(p' & -> & ->) | (x' & a' & -> & ->)].
      * left. exists p'. now split.
      * right. exists x', a'. now split.
Qed.

(** The longest run of digits at the head of a text. *)
Lemma digits_span (s : string) :
  exists ds rest, s = ds ++ rest /\ all_digits ds = true /\ starts_with_digit rest = false.
Proof.
  induction s as [|c s (ds & rest & -> & Hd & Hr)].
  - exists "", "". now repeat split.
  - destruct (is_digit c) eqn:Hc.
    + exists (String c ds), rest. repeat split; try assumption.
      cbn [all_digits]. now rewrite Hc, Hd.
    + exists "", (String c (ds ++ rest)). now repeat split.
Qed.

(** Wherever [updated_date=] is followed by three digit runs, the
    pattern matches (taking the third run to its end). *)
Lemma match_here_occurrence (y m d post : string) :
  digit_run y -> digit_run m -> digit_run d ->
  exists g, match_here ("updated_date=" ++ date_text y m d ++ post) = Some g.
Proof.
  intros Hy Hm [Hd Hne].
  destruct (digits_span post) as (dp & rest & -> & Hdp & Hrest).
  exists (date_text y m (d ++ dp)).
  replace (date_text y m d ++ dp ++ rest) with (date_text y m (d ++ dp) ++ rest)
    by (unfold date_text; now rewrite !append_assoc).
  apply match_here_date; try assumption.
  split.
  - now rewrite all_digits_append, Hd, Hdp.
  - destruct d; [congruence | discriminate].
Qed.

(** A text that starts with [u] cannot complete a match begun before it. *)
Lemma match_here_append_none (p t : string) :
  match_here p = None -> p <> "" -> match_here (p ++ String "u" t) = None.
Proof.
  intros Hp Hne.
  destruct (match_here (p ++ String "u" t)) as [g|] eqn:E; [|reflexivity].
  exfalso.
  apply match_here_inv in E as (y & m & d & post & E & _ & Hy & Hm & Hd).
  apply append_eq_append in E as [(p' & -> & E) | (x & a' & E & Et)].
  - symmetry in E.
    apply append_eq_append in E as [(p'' & -> & _) | (x & a' & E & Et)].
    + destruct (match_here_occurrence y m d p'' Hy Hm Hd) as [g' Hg'].
      congruence.
    + injection Et as <- _.
      pose proof (date_text_no_u y m d Hy Hm Hd) as Hu.
      rewrite E, has_char_append in Hu. cbn [has_char] in Hu.
      rewrite Ascii.eqb_refl in Hu. cbn in Hu.
      now rewrite orb_true_r in Hu.
  - injection Et as <- _.
    destruct p as [|c p]; [congruence |].
    cbn [String.append] in E. injection E as _ E.
    assert (Hu : has_char "u" "pdated_date=" = false) by reflexivity.
    rewrite E, has_char_append in Hu. cbn [has_char] in Hu.
    rewrite Ascii.eqb_refl in Hu. cbn in Hu.
    now rewrite orb_true_r in Hu.
Qed.

Lemma search_cons (c : ascii) (s : string) :
  search (String c s) =
  match match_here (String c s) with Some g => Some g | None => search s end.
Proof. reflexivity. Qed.

Lemma search_append_u (p t : string) :
  search p = None -> search (p ++ String "u" t) = search (String "u" t).
Proof.
  induction p as [|c p IH]; [reflexivity |].
  rewrite search_cons. destruct (match_here (String c p)) eqn:E; [discriminate |].
  intros Hp. cbn [String.append]. rewrite search_cons.
  change (String c (p ++ String "u" t)) with (String c p ++ String "u" t).
  rewrite match_here_append_none by (assumption || discriminate).
  now apply IH.
Qed.

Lemma search_suffix (p t : string) : search (p ++ t) = None -> match_here t = None.
Proof.
  induction p as [|c p IH].
  - cbn [String.append]. destruct t; cbn [search];
      destruct (match_here _); congruence.
  - cbn [String.append]. rewrite search_cons.
    destruct (match_here (String c (p ++ t))); [discriminate | exact IH].
Qed.

Lemma search_Some_inv (s g : string) :
  search s = Some g -> exists p t, s = p ++ t /\ match_here t = Some g.
Proof.
  induction s as [|c s IH].
  - cbn [search]. destruct (match_here "") eqn:E; [|discriminate].
    intros [= ->]. exists "", "". now split.
  - rewrite search_cons. destruct (match_here (String c s)) eqn:E.
    + intros [= ->]. exists "", (String c s). now split.
    + intros H. destruct (IH H) as (p & t & -> & Ht).
      exists (String c p), t. now split.
Qed.

Lemma extract_date_empty (s : string) : extract_date s = "" <-> search s = None.
Proof.
  unfold extract_date. split.
  - destruct (search s) as [g|] eqn:E; [|reflexivity]. intros ->.
    apply search_Some_inv in E as (p & t & _ & E).
    apply match_here_inv in E as (y & m & d & post & _ & E & Hy & _).
    symmetry in E. now apply date_text_nonempty in E.
  - now intros ->.
Qed.

(** ** C8: what [__extract_date] returns *)

(** C8, read with the pattern as the specification writes it, fails on
    the code: a key with [updated_date=1-2-3] holds no [YYYY-MM-DD] date
    and yet gives a non-empty text, and a key with
    [updated_date=2025-08-041] holds the date [2025-08-04] and gives
    [2025-08-041]. *)
Lemma extract_date_not_as_specified :
  ~ extract_date_as_specified "data/works/updated_date=1-2-3/part_000.gz" /\
  ~ extract_date_as_specified "data/works/updated_date=2025-08-041/part_000.gz".
Proof.
  split; intros H; vm_compute in H.
  - discriminate H.
  - destruct H as [H | []]. discriminate H.
Qed.

(** C8 (amended): [__extract_date] is a total function of the key.  For
    the first place, from the left, where [updated_date=] is followed by
    three non-empty runs of decimal digits separated by [-], it returns
    the three runs joined by [-], the last one taken up to the first
    character that is not a digit; so a key whose first such place reads
    [updated_date=YYYY-MM-DD] followed by no further digit gives exactly
    [YYYY-MM-DD].  It returns the empty text exactly for the keys with no
    such place. *)
Theorem extract_date_leftmost_digit_runs :
  (forall pre y m d post,
      digit_run y -> digit_run m -> digit_run d ->
      starts_with_digit post = false ->
      extract_date pre = "" ->
      extract_date (pre ++ "updated_date=" ++ date_text y m d ++ post)
      = date_text y m d) /\
  (forall key,
      extract_date key = "" <->
      ~ exists pre y m d post,
          digit_run y /\ digit_run m /\ digit_run d /\
          key = pre ++ "updated_date=" ++ date_text y m d ++ post).
Proof.
  split.
  - intros pre y m d post Hy Hm Hd Hpost Hpre.
    apply extract_date_empty in Hpre.
    unfold extract_date.
    change ("updated_date=" ++ date_text y m d ++ post)
      with (String "u" ("pdated_date=" ++ date_text y m d ++ post)).
    rewrite search_append_u by assumption.
    rewrite search_cons.
    change (String "u" ("pdated_date=" ++ date_text y m d ++ post))
      with ("updated_date=" ++ date_text y m d ++ post).
    now rewrite match_here_date.
  - intros key. rewrite extract_date_empty. split.
    + intros Hnone (pre & y & m & d & post & Hy & Hm & Hd & ->).
      apply search_suffix in Hnone.
      destruct (match_here_occurrence y m d post Hy Hm Hd) as [g Hg].
      congruence.
    + intros Hno. destruct (search key) as [g|] eqn:E; [|reflexivity].
      exfalso. apply Hno.
      apply search_Some_inv in E as (p & t & -> & E).
      apply match_here_inv in E as (y & m & d & post & -> & _ & Hy & Hm & Hd).
      exists p, y, m, d, post. auto.
Qed.

(** The amended C8 on a key of the bucket's layout. *)
Lemma extract_date_leftmost_digit_runs_witness :
  extract_date ("data/works/" ++ "updated_date="
                ++ date_text "2025" "08" "04" ++ "/part_000.gz")
  = date_text "2025" "08" "04".
Proof.
  apply (proj1 extract_date_leftmost_digit_runs
           "data/works/" "2025" "08" "04" "/part_000.gz").
  - split; [reflexivity | discriminate].
  - split; [reflexivity | discriminate].
  - split; [reflexivity | discriminate].
  - reflexivity.
  - reflexivity.
Defined.

(** ** [__get_files]: the selection by date *)

Lemma date_fromisoformat_extract (key : string) :
  date_fromisoformat (PyStr (extract_date key)) =
  match key_date key with
  | Some d => Ok d
  | None => Raise (ValueError (isoformat_error (extract_date key)))
  end.
Proof. reflexivity. Qed.

Lemma get_files_objs_ok (sd ed : date) (objs : list s3_object) (acc : list string) :
  forallb passable (List.map Key objs) = true ->
  get_files_objs sd ed objs acc =
  Ok (acc ++ List.filter (in_range sd ed)
               (List.filter (fun k => negb (is_manifest k)) (List.map Key objs)))%list.
Proof.
  revert acc; induction objs as [|o objs IH]; intros acc H.
  - cbn. now rewrite app_nil_r.
  - cbn [List.map forallb] in H. apply andb_prop in H as [Ho H].
    cbn [get_files_objs List.map List.filter].
    destruct (is_manifest (Key o)) eqn:Hm; cbn [negb]; [now apply IH |].
    rewrite date_fromisoformat_extract. cbn [List.filter].
    unfold passable in Ho. rewrite Hm in Ho. cbn in Ho.
    apply bool_decide_eq_true in Ho as [d Hd].
    assert (Hr : in_range sd ed (Key o) = (date_le sd d && date_le d ed)%bool)
      by (unfold in_range; now rewrite Hd).
    rewrite Hr, Hd.
    destruct (date_le sd d && date_le d ed)%bool.
    + rewrite IH by assumption. now rewrite <- app_assoc.
    + now apply IH.
Qed.

Lemma get_files_objs_raises (sd ed : date) (objs : list s3_object) (acc : list string) :
  forallb passable (List.map Key objs) = false ->
  exists msg, get_files_objs sd ed objs acc = Raise (ValueError msg).
Proof.
  revert acc; induction objs as [|o objs IH]; intros acc H; [discriminate |].
  cbn [List.map forallb] in H. cbn [get_files_objs].
  unfold passable at 1 in H.
  destruct (is_manifest (Key o)) eqn:Hm; [now apply IH |].
  rewrite date_fromisoformat_extract.
  destruct (key_date (Key o)) as [d|] eqn:Hd; [| eauto].
  cbn in H. destruct (date_le sd d && date_le d ed)%bool; now apply IH.
Qed.

Lemma listed_keys_cons (p : page) (ps : list page) :
  listed_keys (p :: ps) = (List.map Key (page_contents p) ++ listed_keys ps)%list.
Proof. unfold listed_keys. cbn. now rewrite List.map_app. Qed.

Lemma filter_app_std {A} (f : A -> bool) (l1 l2 : list A) :
  List.filter f (l1 ++ l2) = (List.filter f l1 ++ List.filter f l2)%list.
Proof. induction l1 as [|x l1 IH]; cbn; [reflexivity |]. destruct (f x); cbn; now rewrite IH. Qed.

Lemma get_files_pages_ok (sd ed : date) (pages : list page) (acc : list string) :
  forallb passable (listed_keys pages) = true ->
  get_files_pages sd ed pages acc = Ok (acc ++ files_in_range_spec sd ed pages)%list.
Proof.
  revert acc; induction pages as [|p ps IH]; intros acc H.
  - cbn. now rewrite app_nil_r.
  - rewrite listed_keys_cons, forallb_app in H. apply andb_prop in H as [Hp Hps].
    cbn [get_files_pages]. rewrite get_files_objs_ok by assumption.
    rewrite IH by assumption. unfold files_in_range_spec.
    rewrite listed_keys_cons, !filter_app_std. now rewrite <- app_assoc.
Qed.

Lemma get_files_pages_raises (sd ed : date) (pages : list page) (acc : list string) :
  forallb passable (listed_keys pages) = false ->
  exists msg, get_files_pages sd ed pages acc = Raise (ValueError msg).
Proof.
  revert acc; induction pages as [|p ps IH]; intros acc H; [discriminate |].
  rewrite listed_keys_cons, forallb_app in H. cbn [get_files_pages].
  destruct (forallb passable (List.map Key (page_contents p))) eqn:Hp.
  - rewrite get_files_objs_ok by assumption. now apply IH.
  - destruct (get_files_objs_raises sd ed _ acc Hp) as [msg ->]. eauto.
Qed.

(** [__get_files] on two ISO texts: one listing request, then the loop. *)
Lemma get_files_run (w : world) (ot s e : string) (sd ed : date) (st : state) :
  fromisoformat s = Some sd -> fromisoformat e = Some ed ->
  get_files w ot (PyStr s) (PyStr e) st =
  (get_files_pages sd ed (list_objects_v2 w ("data/" ++ ot ++ "/")) [],
   mkstate (fs st) (catalog st) (log st)
           (trace st ++ [ListObjects ("data/" ++ ot ++ "/")])).
Proof.
  intros Hs He. unfold get_files, bind, lift, emit, date_fromisoformat.
  now rewrite Hs, He.
Qed.

(** On a listing whose non-manifest keys all carry a calendar date,
    [__get_files] returns the keys in range, bounds included, in listing
    order. *)
Lemma get_files_exact (w : world) (ot s e : string) (sd ed : date) (st : state) :
  fromisoformat s = Some sd -> fromisoformat e = Some ed ->
  forallb passable (listed_keys (list_objects_v2 w ("data/" ++ ot ++ "/"))) = true ->
  fst (get_files w ot (PyStr s) (PyStr e) st) =
  Ok (files_in_range_spec sd ed (list_objects_v2 w ("data/" ++ ot ++ "/"))).
Proof.
  intros Hs He Hall. rewrite (get_files_run w ot s e sd ed st Hs He). cbn [fst].
  now rewrite get_files_pages_ok.
Qed.

(** ** C1 and C2: a key without a date stops [__get_files] *)

(** C2 (the code departs from it): a listing that holds a non-manifest
    key whose extracted text is empty or is not a calendar date makes
    [__get_files] raise [ValueError]; the key is not skipped and no list
    is returned.  The loop of [__get_start_date] guards the same
    conversion with [dat != ""]; this one does not. *)
Theorem get_files_raises_on_undated_key
    (w : world) (ot s e : string) (sd ed : date) (st : state) (key : string) :
  fromisoformat s = Some sd -> fromisoformat e = Some ed ->
  In key (listed_keys (list_objects_v2 w ("data/" ++ ot ++ "/"))) ->
  is_manifest key = false ->
  key_date key = None ->
  exists msg, fst (get_files w ot (PyStr s) (PyStr e) st) = Raise (ValueError msg).
Proof.
  intros Hs He Hin Hm Hd. rewrite (get_files_run w ot s e sd ed st Hs He). cbn [fst].
  apply get_files_pages_raises.
  apply not_true_is_false. intros Hall.
  rewrite forallb_forall in Hall. specialize (Hall key Hin).
  unfold passable in Hall. rewrite Hm, Hd in Hall. cbn in Hall.
  discriminate Hall.
Qed.

(** C2 on a listing with a file that carries no date. *)
Lemma get_files_raises_on_undated_key_witness :
  exists msg,
    fst (get_files (sample_world (pages_of [key_0804; key_readme]) []) "works"
           (PyStr "2025-08-04") (PyStr "2025-08-05") empty_state)
    = Raise (ValueError msg).
Proof.
  apply (get_files_raises_on_undated_key
           (sample_world (pages_of [key_0804; key_readme]) []) "works"
           "2025-08-04" "2025-08-05" (mkdate 2025 8 4) (mkdate 2025 8 5)
           empty_state key_readme).
  - reflexivity.
  - reflexivity.
  - simpl. right. left. reflexivity.
  - reflexivity.
  - reflexivity.
Defined.

(** C1 (the code departs from it): on the listing [key_0804; key_readme]
    and the window 2025-08-04..2025-08-05 the specified selection is
    [key_0804], and [__get_files] raises [ValueError] instead of
    returning it.  The cause is the one of C2. *)
Theorem get_files_no_selection_with_undated_key :
  files_in_range_spec (mkdate 2025 8 4) (mkdate 2025 8 5)
    (pages_of [key_0804; key_readme]) = [key_0804] /\
  fst (get_files (sample_world (pages_of [key_0804; key_readme]) []) "works"
         (PyStr "2025-08-04") (PyStr "2025-08-05") empty_state)
  = Raise (ValueError "Invalid isoformat string: ''").
Proof. split; reflexivity. Qed.

(** ** The monad *)

Lemma stateless_ret {A} (a : A) : stateless (ret a).
Proof. now exists (Ok a). Qed.

Lemma stateless_raise {A} (e : exn) : stateless (@raise A e).
Proof. now exists (Raise e). Qed.

Lemma stateless_lift {A} (r : result A) : stateless (lift r).
Proof. now exists r. Qed.

Lemma stateless_raise_if (c : bool) (e : exn) : stateless (raise_if c e).
Proof. destruct c; [apply stateless_raise | apply stateless_ret]. Qed.

Lemma stateless_bind {A B} (m : M A) (k : A -> M B) :
  stateless m -> (forall a, stateless (k a)) -> stateless (bind m k).
Proof.
  intros [r Hm] Hk. destruct r as [a|e].
  - destruct (Hk a) as [r' Hr']. exists r'. intros st.
    unfold bind. now rewrite Hm, Hr'.
  - exists (Raise e). intros st. unfold bind. now rewrite Hm.
Qed.

Lemma stateless_bad_date_fmt (v : pyval) : stateless (bad_date_fmt v).
Proof.
  unfold bad_date_fmt. destruct (is_none v); [apply stateless_ret |].
  apply stateless_bind; [apply stateless_lift | intros; apply stateless_ret].
Qed.

(** Validation touches nothing: no file, no table, no request. *)
Lemma validate_stateless (a : load_args) : stateless (validate a).
Proof.
  unfold validate.
  repeat first
    [ apply stateless_bind; [| intros ?]
    | apply stateless_raise_if
    | apply stateless_bad_date_fmt
    | apply stateless_ret
    | apply stateless_raise
    | match goal with |- stateless (match ?v with _ => _ end) => destruct v end ].
Qed.

Lemma validate_state (a : load_args) (st : state) :
  validate a st = (fst (validate a empty_state), st).
Proof.
  destruct (validate_stateless a) as [r Hr]. now rewrite !Hr.
Qed.

(** A call that fails validation fails at once, in the state it found. *)
Lemma load_table_invalid_fails_fast
    (self : OpenAlexParser) (w : world) (a : load_args) (st : state) (e : exn) :
  fst (validate a st) = Raise e -> load_table self w a st = (Raise e, st).
Proof.
  intros H. unfold load_table, stage, bind.
  rewrite validate_state in *. cbn [fst] in H. now rewrite H.
Qed.

(** Validation accepts exactly the arguments the specification accepts. *)
Lemma validate_accepts_iff_valid (a : load_args) (st : state) :
  is_ok (fst (validate a st)) = args_valid a.
Proof.
  destruct a as [ot cs lim sd ed ps dir].
  unfold args_valid, validate, bind, raise_if, bad_date_fmt, check_date_fmt,
    date_fromisoformat, not_all, iso_or_none, list_of_or_none, lift, ret, raise.
  cbn [obj_type cols limit start_date end_date parts download_dir].
  destruct ot; try reflexivity.
  destruct (existsb (String.eqb s) accepted_types); [|reflexivity].
  destruct sd as [| | | |s1| |]; try reflexivity;
    (destruct ed as [| | | |s2| |]; try reflexivity);
    try (destruct (fromisoformat s1); [|reflexivity]);
    try (destruct (fromisoformat s2); [|reflexivity]).
  all: destruct ps as [| | | | |l1|]; try reflexivity.
  all: try (destruct (forallb isinstance_int l1); [|reflexivity]).
  all: destruct cs as [| | | | |l2|]; try reflexivity.
  all: try (destruct (forallb isinstance_str l2); [|reflexivity]).
  all: destruct lim; reflexivity.
Qed.

(** [os.makedirs] returns for every path it does not refuse outright,
    and raises for the others, before it touches the file system. *)
Lemma makedirs_ok (dir : string) (st : state) :
  makedirs_refusal dir = None -> fst (makedirs dir st) = Ok tt.
Proof.
  intros H. unfold makedirs, bind, emit, get_state, set_fs, ret. rewrite H. cbn.
  now destruct (fs st !! dir).
Qed.

Lemma makedirs_refused (dir : string) (st : state) (e : exn) :
  makedirs_refusal dir = Some e ->
  makedirs dir st
  = (Raise e, mkstate (fs st) (catalog st) (log st) (trace st ++ [MakeDirs dir])).
Proof.
  intros H. unfold makedirs, bind, emit, raise. now rewrite H.
Qed.


(** ** C4: the message for a malformed [start_date] *)

(** C4 (the code departs from it): [load_table(obj_type="works",
    start_date="08-04-2025")] does fail before any I/O, in the state it
    found, but the message of its [ValueError] names [end_date]; the
    offending argument, [start_date], is not in it.  Line 225 raises the
    text of line 228. *)
Theorem load_table_bad_start_date_names_end_date :
  forall (self : OpenAlexParser) (w : world) (st : state),
    load_table self w works_from_bad_date st
    = (Raise (ValueError "Expected end_date of the format 'YYYY-mm-dd'"), st) /\
    contains "start_date" "Expected end_date of the format 'YYYY-mm-dd'" = false.
Proof.
  intros self w st. split; [| reflexivity].
  apply load_table_invalid_fails_fast. now rewrite validate_state.
Qed.

(** ** C5: [__get_start_date] *)

(** C5 (the code departs from it).  On an instance built by [__init__]
    the method raises [AttributeError] whatever the listing: it reads
    [self.__obj_type], which nothing assigns.  The loop itself, on a
    listing in key order, returns at the first date below today
    (2025-08-05 here) where the minimum is 2025-08-04; and a key whose
    digits are no calendar date makes it raise [ValueError] where the
    claim has an unset result. *)
Theorem get_start_date_raises_or_returns_first :
  (forall n p w st, get_start_date (init n p) w st = (Raise no_obj_type_attr, st)) /\
  (get_start_date_pages (mkdate 2025 8 10)
     (pages_of [key_legacy; key_manifest; key_0804]) = Ok (Some "2025-08-05") /\
   min_date_below (mkdate 2025 8 10)
     (listed_dates (pages_of [key_legacy; key_manifest; key_0804]))
   = Some (mkdate 2025 8 4)) /\
  (exists msg,
      get_start_date_pages (mkdate 2025 8 10) (pages_of [key_month13])
      = Raise (ValueError msg)).
Proof.
  split; [| split; [split |]]; try reflexivity.
  eexists. reflexivity.
Qed.

(** ** C9: the defaults of [load_table] *)

(** C9 (the code departs from it).  With [start_date] omitted the call
    raises [AttributeError] (the defect of C5); with [start_date] given
    and [end_date] omitted it raises [TypeError], because the default is
    the [date] object [datetime.date.today()] and [__get_files] converts
    its argument from text; the same call with today's date written out
    loads the table. *)
Theorem load_table_defaults_raise :
  (forall n p w st,
      fst (load_table (init n p) w (default_args (PyStr "works")) st)
      = Raise no_obj_type_attr) /\
  (forall self w st,
      fst (load_table self w (works_from "2025-08-04") st)
      = Raise (TypeError "fromisoformat: argument must be str")) /\
  fst (load_table (init 4 None) (sample_world (pages_of [key_manifest; key_0804]) [])
         (works_between "2025-08-04" "2025-08-10") empty_state) = Ok tt.
Proof.
  split; [| split].
  - intros n p w st. unfold load_table, stage, bind at 1 2.
    rewrite validate_state.
    replace (fst (validate (default_args (PyStr "works")) empty_state))
      with (@Ok string "works") by reflexivity.
    unfold bind at 1.
    pose proof (makedirs_ok (download_dir (default_args (PyStr "works"))) st eq_refl) as Hmk.
    destruct (makedirs _ st) as [r st1]. cbn [fst] in Hmk. subst r.
    reflexivity.
  - intros self w st. unfold load_table, stage, bind at 1 2.
    rewrite validate_state.
    replace (fst (validate (works_from "2025-08-04") empty_state))
      with (@Ok string "works") by reflexivity.
    unfold bind at 1.
    pose proof (makedirs_ok (download_dir (works_from "2025-08-04")) st eq_refl) as Hmk.
    destruct (makedirs _ st) as [r st1]. cbn [fst] in Hmk. subst r.
    reflexivity.
  - vm_compute. reflexivity.
Qed.

(** ** What the staging steps leave alone *)

Lemma writes_of_app (t : string) (a b : list io_event) :
  writes_of t (a ++ b) = (writes_of t a ++ writes_of t b)%list.
Proof.
  induction a as [|e a IH]; [reflexivity |].
  destruct e as [| | | | |s [n|]|]; cbn [app writes_of]; try exact IH.
  destruct (String.eqb (stmt_table s) t); cbn [app]; now rewrite IH.
Qed.

Lemma downloads_of_app (a b : list io_event) :
  downloads_of (a ++ b) = (downloads_of a ++ downloads_of b)%list.
Proof.
  induction a as [|e a IH]; [reflexivity |].
  destruct e; cbn [app downloads_of]; now rewrite IH.
Qed.

Lemma stage_frame_refl (st : state) : stage_frame st st.
Proof. now repeat split. Qed.

Lemma stage_frame_trans (a b c : state) :
  stage_frame a b -> stage_frame b c -> stage_frame a c.
Proof.
  intros (H1 & H2 & H3) (H4 & H5 & H6). repeat split.
  - congruence.
  - intros t. now rewrite H5, H2.
  - auto.
Qed.

Create HintDb frame.

Lemma preserves_bind {A B} (m : M A) (k : A -> M B) :
  preserves stage_frame m -> (forall a, preserves stage_frame (k a)) ->
  preserves stage_frame (bind m k).
Proof.
  intros Hm Hk st. unfold bind. specialize (Hm st).
  destruct (m st) as [[a|e] st1]; cbn [snd] in *; [| exact Hm].
  eapply stage_frame_trans; [exact Hm | apply Hk].
Qed.

Lemma preserves_stateless {A} (m : M A) : stateless m -> preserves stage_frame m.
Proof. intros [r Hr] st. rewrite Hr. apply stage_frame_refl. Qed.

Lemma preserves_ret {A} (a : A) : preserves stage_frame (ret a).
Proof. intros st. apply stage_frame_refl. Qed.

Lemma preserves_raise {A} (e : exn) : preserves stage_frame (@raise A e).
Proof. intros st. apply stage_frame_refl. Qed.

Lemma preserves_lift {A} (r : result A) : preserves stage_frame (lift r).
Proof. intros st. apply stage_frame_refl. Qed.

(** Any event but the record of a statement that wrote rows. *)
Lemma preserves_emit (e : io_event) :
  (forall s n, e <> Execute s (Some n)) -> preserves stage_frame (emit e).
Proof.
  intros He st. repeat split; cbn; auto.
  intros t. rewrite writes_of_app.
  destruct e as [| | | | |s [n|]|]; cbn; try apply app_nil_r.
  now destruct (He s n).
Qed.

Lemma preserves_progress_log (line : string) : preserves stage_frame (progress_log line).
Proof. intros st. now repeat split. Qed.

Lemma preserves_write_file (dir name body : string) :
  preserves stage_frame (write_file dir name body).
Proof.
  intros st. unfold write_file.
  destruct (fs st !! dir) as [files|] eqn:E; cbn; [| apply stage_frame_refl].
  repeat split; cbn. intros d Hd.
  destruct (decide (dir = d)) as [<-|Hne].
  - rewrite lookup_insert_eq. eauto.
  - now rewrite lookup_insert_ne.
Qed.

Lemma preserves_makedirs (dir : string) : preserves stage_frame (makedirs dir).
Proof.
  intros st. unfold makedirs, bind, emit, get_state, set_fs, ret, raise.
  destruct (makedirs_refusal dir) as [e|]; cbn.
  { repeat split; cbn; auto. intros t. rewrite writes_of_app. apply app_nil_r. }
  destruct (fs st !! dir) as [files|] eqn:E; cbn.
  - repeat split; cbn; auto. intros t. rewrite writes_of_app. apply app_nil_r.
  - repeat split; cbn.
    + intros t. rewrite writes_of_app. apply app_nil_r.
    + intros d Hd. destruct (decide (dir = d)) as [<-|Hne].
      * rewrite lookup_insert_eq. eauto.
      * now rewrite lookup_insert_ne.
Qed.

#[local] Hint Resolve preserves_ret preserves_raise preserves_lift
  preserves_progress_log preserves_write_file preserves_makedirs : frame.

Ltac frame_step :=
  first
    [ apply preserves_bind; [| intros ?]
    | apply preserves_emit; discriminate
    | solve [auto with frame] ].

Lemma preserves_get_start_date (self : OpenAlexParser) (w : world) :
  preserves stage_frame (get_start_date self w).
Proof.
  unfold get_start_date. destruct (attr_obj_type self); repeat frame_step.
Qed.

Lemma preserves_get_files (w : world) (ot : string) (sd ed : pyval) :
  preserves stage_frame (get_files w ot sd ed).
Proof. unfold get_files. repeat frame_step. Qed.

Lemma preserves_submit_files (w : world) (files : list string) :
  preserves stage_frame (submit_files w files).
Proof.
  induction files as [|f files IH]; cbn [submit_files]; [auto with frame |].
  apply preserves_bind; [apply preserves_emit; discriminate | intros _].
  destruct (head_object w f); repeat frame_step; exact IH.
Qed.

Lemma preserves_copy_data (w : world) (key dir : string) :
  preserves stage_frame (copy_data w key dir).
Proof. unfold copy_data. repeat frame_step. Qed.

Lemma preserves_run_pool (w : world) (dir : string) (futures : list string) :
  preserves stage_frame (run_pool w dir futures).
Proof.
  induction futures as [|k futures IH]; cbn [run_pool]; [auto with frame |].
  apply preserves_bind; [| intros _; exact IH].
  intros st. unfold run_task. cbn [snd]. apply preserves_copy_data.
Qed.

Lemma preserves_download_files (w : world) (ot : string) (sd ed ps : pyval) (dir : string) :
  preserves stage_frame (download_files w ot sd ed ps dir).
Proof.
  unfold download_files.
  apply preserves_bind; [apply preserves_get_files | intros files0].
  apply preserves_bind; [auto with frame | intros files].
  apply preserves_bind; [apply preserves_submit_files | intros futures].
  apply preserves_run_pool.
Qed.

(** Everything before the statement leaves the tables and the recorded
    row counts as they were, and removes no directory. *)
Lemma preserves_stage (self : OpenAlexParser) (w : world) (a : load_args) :
  preserves stage_frame (stage self w a).
Proof.
  unfold stage.
  apply preserves_bind; [apply preserves_stateless, validate_stateless | intros ot].
  apply preserves_bind; [apply preserves_makedirs | intros _].
  apply preserves_bind.
  { unfold start_date_or_default. destruct (is_none (start_date a));
      [apply preserves_get_start_date | auto with frame]. }
  intros sd.
  apply preserves_bind; [apply preserves_download_files | intros _].
  auto with frame.
Qed.

(** ** The staging directory *)

Lemma makedirs_exists (dir : string) (st : state) :
  makedirs_refusal dir = None ->
  is_Some (fs (snd (makedirs dir st)) !! dir).
Proof.
  intros Hdir. unfold makedirs, bind, emit, get_state, set_fs, ret.
  rewrite Hdir. cbn.
  destruct (fs st !! dir) as [files|] eqn:E; cbn.
  - rewrite E. eauto.
  - rewrite lookup_insert_eq. eauto.
Qed.

(** [stage] after validation: the directory, then the rest. *)
Lemma stage_after_validate (self : OpenAlexParser) (w : world) (a : load_args)
    (st : state) (ot : string) :
  fst (validate a st) = Ok ot ->
  makedirs_refusal (download_dir a) = None ->
  stage self w a st =
  (start_date <-- start_date_or_default self w a ;;
   download_files w ot start_date (end_date_or_default w a)
     (parts_or_default a) (download_dir a) ;;;
   ret ot) (snd (makedirs (download_dir a) st)).
Proof.
  intros H Hdir. unfold stage. unfold bind at 1 2.
  rewrite validate_state in *. cbn [fst] in H. rewrite H.
  pose proof (makedirs_ok (download_dir a) st Hdir) as Hmk.
  destruct (makedirs (download_dir a) st) as [r st1]. cbn [fst snd] in *.
  now subst r.
Qed.

(** A path [os.makedirs] refuses ends the call there: nothing is listed
    or downloaded, and no statement runs. *)
Lemma stage_refused (self : OpenAlexParser) (w : world) (a : load_args)
    (st : state) (ot : string) (e : exn) :
  fst (validate a st) = Ok ot ->
  makedirs_refusal (download_dir a) = Some e ->
  stage self w a st
  = (Raise e, mkstate (fs st) (catalog st) (log st)
                      (trace st ++ [MakeDirs (download_dir a)])).
Proof.
  intros H Hdir. unfold stage. unfold bind at 1 2.
  rewrite validate_state in *. cbn [fst] in H. rewrite H.
  now rewrite (makedirs_refused _ st e Hdir).
Qed.

Lemma stage_validated (self : OpenAlexParser) (w : world) (a : load_args)
    (st st1 : state) (ot : string) :
  stage self w a st = (Ok ot, st1) -> fst (validate a st) = Ok ot.
Proof.
  unfold stage. unfold bind at 1. rewrite validate_state.
  destruct (fst (validate a empty_state)) as [ot'|e]; [| discriminate].
  cbn [fst]. intros H. f_equal.
  unfold bind in H.
  destruct (makedirs (download_dir a) st) as [[[]|] s1]; [| discriminate].
  destruct (start_date_or_default self w a s1) as [[sd|] s2]; [| discriminate].
  destruct (download_files _ _ _ _ _ _ s2) as [[[]|] s3]; [| discriminate].
  unfold ret in H. congruence.
Qed.

Lemma stage_makedirs (self : OpenAlexParser) (w : world) (a : load_args)
    (st st1 : state) (ot : string) :
  stage self w a st = (Ok ot, st1) -> makedirs_refusal (download_dir a) = None.
Proof.
  intros H. pose proof (stage_validated _ _ _ _ _ _ H) as Hv.
  destruct (makedirs_refusal (download_dir a)) as [e|] eqn:Hdir; [| reflexivity].
  rewrite (stage_refused self w a st ot e Hv Hdir) in H. discriminate.
Qed.

(** When the downloads are over the staging directory is there. *)
Lemma stage_dir_exists (self : OpenAlexParser) (w : world) (a : load_args)
    (st st1 : state) (ot : string) :
  stage self w a st = (Ok ot, st1) -> is_Some (fs st1 !! download_dir a).
Proof.
  intros H. pose proof (stage_validated _ _ _ _ _ _ H) as Hv.
  pose proof (stage_makedirs _ _ _ _ _ _ H) as Hmk.
  rewrite (stage_after_validate self w a st ot Hv Hmk) in H.
  assert (Hp : preserves stage_frame
                 (start_date <-- start_date_or_default self w a ;;
                  download_files w ot start_date (end_date_or_default w a)
                    (parts_or_default a) (download_dir a) ;;;
                  ret ot)).
  { apply preserves_bind.
    { unfold start_date_or_default. destruct (is_none (start_date a));
        [apply preserves_get_start_date | auto with frame]. }
    intros sd. apply preserves_bind; [apply preserves_download_files | intros _].
    auto with frame. }
  specialize (Hp (snd (makedirs (download_dir a) st))).
  rewrite H in Hp. cbn [snd] in Hp. destruct Hp as (_ & _ & Hdirs).
  now apply Hdirs, makedirs_exists.
Qed.

(** ** The load statement *)


Lemma insert_rows_none (t : string) (rs : list string) (cat : list table) :
  count_tables t cat = 0%nat -> insert_rows t rs cat = None.
Proof.
  unfold count_tables. induction cat as [|tb cat IH]; [reflexivity |].
  cbn [List.filter insert_rows].
  destruct (String.eqb (table_name tb) t); [discriminate |].
  intros H. now rewrite IH.
Qed.

Lemma insert_rows_some (t : string) (rs : list string) (cat : list table) :
  (0 < count_tables t cat)%nat -> is_Some (insert_rows t rs cat).
Proof.
  unfold count_tables. induction cat as [|tb cat IH]; cbn [List.filter insert_rows].
  - cbn. lia.
  - destruct (String.eqb (table_name tb) t); [eauto |].
    intros H. destruct (IH H) as [c ->]. cbn. eauto.
Qed.

Lemma has_table_none (k : table_kind) (t : string) (cat : list table) :
  count_tables t cat = 0%nat -> has_table k t cat = false.
Proof.
  unfold count_tables, has_table. induction cat as [|tb cat IH]; [reflexivity |].
  cbn [List.filter existsb].
  destruct (String.eqb (table_name tb) t); [discriminate |].
  intros H. cbn. now apply IH.
Qed.

(** The statement [load_table] builds never fails in the catalog: it
    succeeds exactly when its select can be read, and then stores the
    rows. *)
Lemma conn_execute_statement (self : OpenAlexParser) (w : world) (a : load_args)
    (ot : string) (st : state) :
  let q := statement_of self w a ot st in
  conn_execute w q (queried ot st) =
  match read_ndjson_auto w (select_of w a ot) (files_of st (download_dir a)) with
  | Raise e =>
      (Raise e, mkstate (fs st) (catalog st) (log st)
                        ((trace st ++ [QueryTables ot]) ++ [Execute q None]))
  | Ok rs =>
      (Ok tt, mkstate (fs st) (stored self ot rs (catalog st)) (log st)
                      ((trace st ++ [QueryTables ot])
                       ++ [Execute q (Some (List.length rs))]))
  end.
Proof.
  intros q. subst q. unfold statement_of, sql_query, conn_execute, stored.
  unfold bind, get_state, emit, set_catalog, raise, queried, files_of.
  destruct (0 <? count_tables ot (catalog st))%nat eqn:Hc.
  - apply Nat.ltb_lt in Hc. cbn.
    destruct (read_ndjson_auto w (select_of w a ot) _) as [rs|e]; [| reflexivity].
    destruct (insert_rows_some ot rs (catalog st) Hc) as [cat' ->]. reflexivity.
  - apply Nat.ltb_ge in Hc. assert (Hc0 : count_tables ot (catalog st) = 0%nat) by lia.
    destruct (persist_path self) eqn:Hp;
      cbn [stmt_select sel_dir select_of fs catalog log trace];
      (destruct (read_ndjson_auto w (select_of w a ot) _) as [rs|e]; [| reflexivity]);
      rewrite (has_table_none _ ot _ Hc0), (insert_rows_none ot rs _ Hc0);
      unfold kind_for; now rewrite Hp.
Qed.

(** [load_table] is [stage], the catalog query, the statement, and the
    removal of the staging directory when the statement returned. *)
Lemma load_table_after_stage (self : OpenAlexParser) (w : world) (a : load_args)
    (st st1 : state) (ot : string) :
  stage self w a st = (Ok ot, st1) ->
  load_table self w a st =
  match conn_execute w (statement_of self w a ot st1) (queried ot st1) with
  | (Ok _, st2) =>
      (Ok tt, mkstate (delete (download_dir a) (fs st2)) (catalog st2) (log st2)
                      (trace st2 ++ [RmTree (download_dir a)]))
  | (Raise e, st2) => (Raise e, st2)
  end.
Proof.
  intros H. pose proof (stage_dir_exists _ _ _ _ _ _ H) as [files Hdir].
  rewrite conn_execute_statement.
  unfold load_table. unfold bind at 1. rewrite H.
  unfold create_table, table_exists. unfold bind at 1 2 3 4. unfold emit at 1, get_state at 1, ret at 1.
  cbn [fs catalog log trace].
  change (mkstate (fs st1) (catalog st1) (log st1) (trace st1 ++ [QueryTables ot]))
    with (queried ot st1).
  fold (select_of w a ot). fold (statement_of self w a ot st1).
  rewrite conn_execute_statement.
  destruct (read_ndjson_auto w (select_of w a ot) (files_of st1 (download_dir a)))
    as [rs|e]; [| reflexivity].
  unfold rmtree, bind, emit, get_state, set_fs. cbn. now rewrite Hdir.
Qed.

(** [load_table], run: the staging phase, then the statement over the
    staging directory, then the removal of the directory when the
    statement returned. *)
Lemma load_table_run (self : OpenAlexParser) (w : world) (a : load_args) (st : state) :
  load_table self w a st =
  match stage self w a st with
  | (Raise e, st1) => (Raise e, st1)
  | (Ok ot, st1) =>
      let q := statement_of self w a ot st1 in
      match read_ndjson_auto w (select_of w a ot) (files_of st1 (download_dir a)) with
      | Ok rs =>
          (Ok tt,
           mkstate (delete (download_dir a) (fs st1))
                   (stored self ot rs (catalog st1)) (log st1)
                   (((trace st1 ++ [QueryTables ot])
                     ++ [Execute q (Some (List.length rs))])
                    ++ [RmTree (download_dir a)]))
      | Raise e =>
          (Raise e,
           mkstate (fs st1) (catalog st1) (log st1)
                   ((trace st1 ++ [QueryTables ot]) ++ [Execute q None]))
      end
  end.
Proof.
  destruct (stage self w a st) as [[ot|e] st1] eqn:Hst.
  - rewrite (load_table_after_stage _ _ _ _ _ _ Hst), conn_execute_statement.
    cbv zeta.
    now destruct (read_ndjson_auto w (select_of w a ot) (files_of st1 (download_dir a))).
  - unfold load_table, bind. now rewrite Hst.
Qed.

(** ** C6: the staging directory after the statement *)



(** ** C10: an empty selection *)

(** C10: when the downloads are through and the staging directory holds
    no file, [load_table] has not returned: it runs the create-or-insert
    statement, which reads the empty directory, and the call ends as
    that statement ends. *)
Theorem load_table_runs_statement_on_empty_staging
    (self : OpenAlexParser) (w : world) (a : load_args) (st st1 : state) (ot : string) :
  stage self w a st = (Ok ot, st1) ->
  files_of st1 (download_dir a) = ∅ ->
  (exists written,
      In (Execute (statement_of self w a ot st1) written)
         (trace (snd (load_table self w a st)))) /\
  fst (load_table self w a st)
  = fst (conn_execute w (statement_of self w a ot st1) (queried ot st1)) /\
  fst (load_table self w a st)
  = match read_ndjson_auto w (select_of w a ot) ∅ with
    | Ok _ => Ok tt
    | Raise e => Raise e
    end.
Proof.
  intros H Hempty. rewrite (load_table_after_stage _ _ _ _ _ _ H).
  rewrite conn_execute_statement, Hempty.
  destruct (read_ndjson_auto w (select_of w a ot) ∅) as [rs|e]; cbn [fst snd trace].
  - split; [| split; reflexivity].
    exists (Some (List.length rs)). rewrite !in_app_iff. cbn. auto.
  - split; [| split; reflexivity].
    exists None. rewrite !in_app_iff. cbn. auto.
Qed.

(** C10 on an empty date window. *)
Lemma load_table_runs_statement_on_empty_staging_witness :
  (exists written,
      In (Execute (CreateTableAs Temporary "works"
                     (mkselect (PyStr "*") "./.cache/oa" (Some "{'id': 'VARCHAR'}") PyNone))
                  written)
         (trace (snd (load_table sample_parser august_world january_call empty_state)))) /\
  fst (load_table sample_parser august_world january_call empty_state)
  = fst (conn_execute august_world
           (statement_of sample_parser august_world january_call "works"
              (snd (stage sample_parser august_world january_call empty_state)))
           (queried "works"
              (snd (stage sample_parser august_world january_call empty_state)))) /\
  fst (load_table sample_parser august_world january_call empty_state)
  = Raise (DuckDBError "IO Error: No files found that match the pattern").
Proof.
  exact (load_table_runs_statement_on_empty_staging
           sample_parser august_world january_call empty_state
           (snd (stage sample_parser august_world january_call empty_state))
           "works" eq_refl eq_refl).
Defined.

(** ** [__download_files]: the submission loop and the pool *)

(** The loop of lines 169-182 never raises: it asks for the size of
    every file, hands the files whose size it got to the pool, and logs
    one line for each of the others. *)
Lemma submit_files_run (w : world) (files : list string) (st : state) :
  submit_files w files st =
  (Ok (List.filter (head_ok w) files),
   mkstate (fs st) (catalog st) (log st ++ size_errors w files)
           (trace st ++ List.map HeadObject files)).
Proof.
  revert st; induction files as [|f files IH]; intros st.
  - cbn. rewrite !app_nil_r. now destruct st.
  - cbn [submit_files List.filter size_errors List.map].
    unfold bind at 1, emit at 1. unfold head_ok at 1.
    destruct (head_object w f) as [sz|e]; cbn [is_ok].
    + unfold bind, ret. rewrite IH. cbn [fs catalog log trace].
      now rewrite <- app_assoc.
    + unfold bind at 1, progress_log at 1. rewrite IH. cbn [fs catalog log trace].
      now rewrite <- !app_assoc.
Qed.

(** One task of the pool: it asks for the size again, starts the
    download, and writes the file when the bytes came. *)
Lemma run_task_effect (w : world) (dir key : string) (st : state) :
  let st' := snd (copy_data w key dir st) in
  log st' = log st /\
  downloads_of (trace st')
  = (downloads_of (trace st) ++ (if head_ok w key then [key] else []))%list /\
  fs st' = match fs st !! dir with
           | Some files =>
               <[dir := if head_ok w key then staged_file w files key else files]> (fs st)
           | None => fs st
           end.
Proof.
  unfold copy_data, bind, emit, lift, write_file, head_ok, staged_file.
  cbn [fs catalog log trace].
  destruct (head_object w key) as [sz|e]; cbn [is_ok snd log trace fs].
  2:{ repeat split; auto.
      - rewrite downloads_of_app. cbn. reflexivity.
      - destruct (fs st !! dir) as [files|] eqn:E; [| reflexivity].
        symmetry. now apply insert_id. }
  destruct (download_file w key) as [body|e]; cbn [snd log trace fs].
  2:{ repeat split; auto.
      - rewrite !downloads_of_app. cbn. now rewrite <- app_assoc.
      - destruct (fs st !! dir) as [files|] eqn:E; [| reflexivity].
        symmetry. now apply insert_id. }
  destruct (fs st !! dir) as [files|] eqn:E; cbn [snd log trace fs].
  - repeat split. rewrite !downloads_of_app. cbn. now rewrite <- app_assoc.
  - repeat split. rewrite !downloads_of_app. cbn. now rewrite <- app_assoc.
Qed.

Lemma staged_cons (w : world) (key : string) (keys : list string)
    (files : gmap string string) :
  staged w (key :: keys) files = staged w keys (staged_file w files key).
Proof. reflexivity. Qed.

(** The pool never raises; it starts a download for each key it was
    handed whose size can be read, and writes the files that came, each
    under its local name. *)
Lemma run_pool_effect (w : world) (dir : string) (futures : list string) (st : state) :
  exists st',
    run_pool w dir futures st = (Ok tt, st') /\
    log st' = log st /\
    downloads_of (trace st')
    = (downloads_of (trace st) ++ List.filter (head_ok w) futures)%list /\
    fs st' = match fs st !! dir with
             | Some files =>
                 <[dir := staged w (List.filter (head_ok w) futures) files]> (fs st)
             | None => fs st
             end.
Proof.
  revert st; induction futures as [|k futures IH]; intros st.
  - exists st. cbn. rewrite app_nil_r. repeat split.
    destruct (fs st !! dir) as [files|] eqn:E; [| reflexivity].
    symmetry. now apply insert_id.
  - cbn [run_pool]. unfold bind at 1, run_task at 1.
    destruct (run_task_effect w dir k st) as (Hl & Hd & Hf).
    destruct (IH (snd (copy_data w k dir st))) as (st' & Hr & Hl' & Hd' & Hf').
    exists st'. split; [exact Hr |]. split; [congruence |]. split.
    + rewrite Hd', Hd. cbn [List.filter]. rewrite <- app_assoc.
      now destruct (head_ok w k).
    + rewrite Hf', Hf. cbn [List.filter].
      destruct (fs st !! dir) as [files|] eqn:E; [| now rewrite E].
      rewrite (lookup_insert_eq (fs st) dir), insert_insert_eq.
      now destruct (head_ok w k).
Qed.

Lemma filter_idem {A} (f : A -> bool) (l : list A) :
  List.filter f (List.filter f l) = List.filter f l.
Proof.
  induction l as [|x l IH]; [reflexivity |]. cbn.
  destruct (f x) eqn:E; cbn; [rewrite E |]; now rewrite ?IH.
Qed.

Lemma downloads_of_heads (files : list string) :
  downloads_of (List.map HeadObject files) = [].
Proof. induction files as [|f files IH]; [reflexivity | exact IH]. Qed.

(** [__download_files] on a selection that could be made. *)
Lemma download_files_run (w : world) (ot s e : string) (sd ed : date)
    (ps : pyval) (dir : string) (files0 files : list string) (st : state) :
  fromisoformat s = Some sd -> fromisoformat e = Some ed ->
  get_files_pages sd ed (list_objects_v2 w ("data/" ++ ot ++ "/")) [] = Ok files0 ->
  select_parts ps files0 = Ok files ->
  exists st',
    download_files w ot (PyStr s) (PyStr e) ps dir st = (Ok tt, st') /\
    log st' = (log st ++ size_errors w files)%list /\
    downloads_of (trace st')
    = (downloads_of (trace st) ++ List.filter (head_ok w) files)%list /\
    fs st' = match fs st !! dir with
             | Some present =>
                 <[dir := staged w (List.filter (head_ok w) files) present]> (fs st)
             | None => fs st
             end.
Proof.
  intros Hs He Hfiles Hparts. unfold download_files.
  unfold bind at 1. rewrite (get_files_run w ot s e sd ed st Hs He), Hfiles.
  unfold bind at 1, lift at 1. rewrite Hparts.
  unfold bind at 1. rewrite submit_files_run.
  match goal with |- context [run_pool w dir ?l ?st0] =>
    destruct (run_pool_effect w dir l st0) as (st' & Hr & Hl & Hd & Hf) end.
  exists st'. split; [exact Hr |]. cbn [fs catalog log trace] in *.
  split; [exact Hl |]. split.
  - rewrite Hd, filter_idem, !downloads_of_app. cbn [downloads_of].
    now rewrite downloads_of_heads, !app_nil_r.
  - now rewrite Hf, filter_idem.
Qed.

Lemma makedirs_effect (dir : string) (st : state) :
  let st' := snd (makedirs dir st) in
  log st' = log st /\
  downloads_of (trace st') = downloads_of (trace st) /\
  forall d, files_of st' d = files_of st d.
Proof.
  unfold makedirs, bind, emit, get_state, set_fs, ret, raise, files_of.
  destruct (makedirs_refusal dir) as [e|]; cbn.
  { split; [reflexivity |]. split; [| reflexivity].
    rewrite downloads_of_app; apply app_nil_r. }
  destruct (fs st !! dir) as [files|] eqn:E; cbn;
    (split; [reflexivity |]; split;
     [rewrite downloads_of_app; apply app_nil_r |]); [reflexivity |].
  intros d. destruct (decide (dir = d)) as [<-|Hne].
  - rewrite (lookup_insert_eq (fs st)), E. reflexivity.
  - now rewrite (lookup_insert_ne (fs st)).
Qed.

(** The file system after [os.makedirs]: the directory is there, with
    the files it had. *)
Lemma makedirs_fs (dir : string) (st : state) :
  makedirs_refusal dir = None ->
  fs (snd (makedirs dir st)) = <[dir := files_of st dir]> (fs st).
Proof.
  intros Hdir. unfold makedirs, bind, emit, get_state, set_fs, ret, files_of.
  rewrite Hdir. cbn.
  destruct (fs st !! dir) as [files|] eqn:E; cbn; [| reflexivity].
  symmetry. now apply insert_id.
Qed.

(** Every file whose size cannot be read has its line in the log. *)
Lemma size_errors_logged (w : world) (files : list string) (f : string) (e : exn) :
  In f files -> head_object w f = Raise e ->
  In ("[bold red] ERROR getting size for " ++ f ++ ": " ++ exn_str e ++ "[/bold red]")
     (size_errors w files).
Proof.
  intros Hin He. induction files as [|g files IH]; [contradiction |].
  cbn [size_errors]. destruct Hin as [->|Hin].
  - rewrite He. now left.
  - destruct (head_object w g); [auto | right; auto].
Qed.

(** [stage] on a call with both dates given, whose selection is
    [files]: it returns, with one log line for each file whose size
    could not be read, one download started for each other file, and
    the staging directory holding what it held plus the files that
    came. *)
Lemma stage_effect
    (self : OpenAlexParser) (w : world) (a : load_args) (st : state)
    (ot s e : string) (sd ed : date) (files0 files : list string) :
  fst (validate a st) = Ok ot ->
  makedirs_refusal (download_dir a) = None ->
  start_date a = PyStr s -> end_date a = PyStr e ->
  fromisoformat s = Some sd -> fromisoformat e = Some ed ->
  get_files_pages sd ed (list_objects_v2 w ("data/" ++ ot ++ "/")) [] = Ok files0 ->
  select_parts (parts_or_default a) files0 = Ok files ->
  exists st1,
    stage self w a st = (Ok ot, st1) /\
    log st1 = (log st ++ size_errors w files)%list /\
    downloads_of (trace st1)
    = (downloads_of (trace st) ++ List.filter (head_ok w) files)%list /\
    fs st1 = <[download_dir a :=
                 staged w (List.filter (head_ok w) files) (files_of st (download_dir a))]>
               (fs st).
Proof.
  intros Hv Hmk Hsd Hed Hs He Hfiles Hparts.
  destruct (makedirs_effect (download_dir a) st) as (Hl0 & Hd0 & Hf0).
  destruct (download_files_run w ot s e sd ed (parts_or_default a) (download_dir a)
              files0 files (snd (makedirs (download_dir a) st)) Hs He Hfiles Hparts)
    as (st1 & Hrun & Hl & Hd & Hf).
  exists st1. split.
  { rewrite (stage_after_validate self w a st ot Hv Hmk).
    unfold start_date_or_default, end_date_or_default. rewrite Hsd, Hed.
    cbn [is_none]. unfold bind at 1, ret at 1. unfold bind at 1.
    now rewrite Hrun. }
  split; [now rewrite Hl, Hl0 |].
  split; [now rewrite Hd, Hd0 |].
  rewrite Hf, (makedirs_fs _ st Hmk), (lookup_insert_eq (fs st)).
  apply insert_insert_eq.
Qed.

(** With a fresh staging directory, a selection none of whose files
    reaches the pool (no file in the window, none left by [parts], or
    every size lookup failing) stages nothing. *)
Lemma empty_selection_stages_nothing
    (self : OpenAlexParser) (w : world) (a : load_args) (st : state)
    (ot s e : string) (sd ed : date) (files0 files : list string) :
  fst (validate a st) = Ok ot ->
  makedirs_refusal (download_dir a) = None ->
  start_date a = PyStr s -> end_date a = PyStr e ->
  fromisoformat s = Some sd -> fromisoformat e = Some ed ->
  get_files_pages sd ed (list_objects_v2 w ("data/" ++ ot ++ "/")) [] = Ok files0 ->
  select_parts (parts_or_default a) files0 = Ok files ->
  List.filter (head_ok w) files = [] ->
  files_of st (download_dir a) = ∅ ->
  exists st1,
    stage self w a st = (Ok ot, st1) /\ files_of st1 (download_dir a) = ∅.
Proof.
  intros Hv Hmk Hsd Hed Hs He Hfiles Hparts Hnone Hfresh.
  destruct (stage_effect self w a st ot s e sd ed files0 files
              Hv Hmk Hsd Hed Hs He Hfiles Hparts) as (st1 & Hst & _ & _ & Hf).
  exists st1. split; [exact Hst |].
  unfold files_of at 1. rewrite Hf, (lookup_insert_eq (fs st)), Hnone, Hfresh.
  reflexivity.
Qed.

(** ** C7: a file whose size cannot be read *)




(** The scenario of the specification: three files selected, one lookup
    fails; the call returns, two downloads were started, one line was
    logged, the table holds the records of the two files (in the order
    the sample reader lists them), and the staging directory is gone. *)
Example partial_failure_scenario :
  let r := load_table sample_parser lossy_world august_call empty_state in
  fst r = Ok tt /\
  downloads_of (trace (snd r)) = [key_0804; key_0806] /\
  log (snd r)
  = ["[bold red] ERROR getting size for " ++ key_0805 ++ ": Not Found[/bold red]"] /\
  catalog (snd r)
  = [mktable "works" Temporary
       ["{record of " ++ key_0806 ++ "}"; "{record of " ++ key_0804 ++ "}"]] /\
  fs (snd r) !! "./.cache/oa" = None.
Proof. vm_compute. repeat split; reflexivity. Qed.

(** ** The table of an entity type over a sequence of loads *)


(** A load for another name leaves the tables of [t] alone. *)
Lemma stored_other (self : OpenAlexParser) (ot t : string) (rs : list string)
    (cat : list table) :
  ot <> t -> tables_named t (stored self ot rs cat) = tables_named t cat.
Proof.
  intros Hne. unfold stored.
  assert (Hins : forall cat', insert_rows ot rs cat = Some cat' ->
                              tables_named t cat' = tables_named t cat).
  { induction cat as [|tb cat IH]; intros cat'; [discriminate |].
    cbn [insert_rows]. destruct (String.eqb_spec (table_name tb) ot) as [Heq|Hneq].
    - intros [= <-]. unfold tables_named. cbn [List.filter table_name].
      rewrite Heq. apply String.eqb_neq in Hne. now rewrite Hne.
    - destruct (insert_rows ot rs cat) as [c|]; [| discriminate].
      cbn. intros [= <-]. unfold tables_named in *. cbn [List.filter].
      now rewrite (IH c eq_refl). }
  destruct (insert_rows ot rs cat) as [cat'|] eqn:E.
  - now apply Hins.
  - unfold tables_named. rewrite filter_app_std. cbn [List.filter table_name].
    apply String.eqb_neq in Hne. rewrite Hne. apply app_nil_r.
Qed.








(** ** C3: create once, then append *)



(** The three calls, run: two of them returned; one persistent table
    with the two records, the first statement a [CREATE TABLE], the
    second an [INSERT INTO]. *)
Example two_loads_run :
  let st' := run_loads persistent_parser two_loads empty_state in
  List.map (fun load => (is_create Persistent "works" (fst load),
                         is_insert "works" (fst load), snd load))
           (loads_done persistent_parser "works" two_loads empty_state)
  = [(true, false, ["{record of " ++ key_0804 ++ "}"]);
     (false, true, ["{record of " ++ key_0805 ++ "}"])] /\
  catalog st'
  = [mktable "works" Persistent
       ["{record of " ++ key_0804 ++ "}"; "{record of " ++ key_0805 ++ "}"]] /\
  List.map (fun qn => (is_create Persistent "works" (fst qn),
                       is_insert "works" (fst qn), snd qn))
           (writes_of "works" (trace st'))
  = [(true, false, 1%nat); (false, true, 1%nat)].
Proof. vm_compute. repeat split; reflexivity. Qed.

(** ** Sample evaluations of the helpers *)

Example extract_date_ex1 :
  extract_date "data/works/updated_date=2025-08-04/part_000.gz" = "2025-08-04".
Proof. reflexivity. Qed.

Example extract_date_ex2 : extract_date "data/works/manifest" = "".
Proof. reflexivity. Qed.

Example py_int_ex :
  py_int "007" = Ok 7 /\ py_int " -1_0 " = Ok (-10) /\ py_int "+5" = Ok 5 /\
  py_int "x" = Raise (ValueError "invalid literal for int() with base 10: 'x'") /\
  is_ok (py_int "") = false /\ is_ok (py_int "1__0") = false /\
  is_ok (py_int "5_") = false /\ is_ok (py_int "- 5") = false.
Proof. repeat split; reflexivity. Qed.

(** The characters [int()] strips: the unit separator 31 is not one of
    them, the no-break space 160 and the next-line character 133 are. *)
Example py_int_spaces :
  is_ok (py_int (String (ascii_of_nat 31) "5")) = false /\
  is_ok (py_int (String "5" (String (ascii_of_nat 28) ""))) = false /\
  py_int (String (ascii_of_nat 160) "5") = Ok 5 /\
  py_int (String "5" (String (ascii_of_nat 133) "")) = Ok 5 /\
  py_int (String (ascii_of_nat 9) (String "5" (String (ascii_of_nat 11) ""))) = Ok 5.
Proof. repeat split; reflexivity. Qed.

Example py_repr_ex :
  py_repr "part" = "'part'" /\
  py_repr "it's" = String quote2 ("it's" ++ String quote2 "") /\
  py_repr (String (ascii_of_nat 31) "5") = String quote1 (String backslash "x1f5'").
Proof. repeat split; reflexivity. Qed.

Example remove_all_ex : remove_all ".gz" (remove_all "part_" "part_012.gz") = "012".
Proof. reflexivity. Qed.

Example split_ex : split_on "/" "a/b//c" = ["a"; "b"; ""; "c"].
Proof. reflexivity. Qed.

Example fromisoformat_ex :
  fromisoformat "2024-02-29" = Some (mkdate 2024 2 29) /\
  fromisoformat "2025-02-29" = None /\
  fromisoformat "08-04-2025" = None /\
  fromisoformat "" = None.
Proof. repeat split; reflexivity. Qed.

(** The other forms [date.fromisoformat] reads, and some it refuses. *)
Example fromisoformat_forms :
  fromisoformat "20250804" = Some (mkdate 2025 8 4) /\
  fromisoformat "2025-W32" = Some (mkdate 2025 8 4) /\
  fromisoformat "2025-W32-1" = Some (mkdate 2025 8 4) /\
  fromisoformat "2025W32" = Some (mkdate 2025 8 4) /\
  fromisoformat "2025W321" = Some (mkdate 2025 8 4) /\
  fromisoformat "2020-W53-7" = Some (mkdate 2021 1 3) /\
  fromisoformat "2020-W01-1" = Some (mkdate 2019 12 30) /\
  fromisoformat "2025-W53-1" = None /\
  fromisoformat "2025-W32-8" = None /\
  fromisoformat "2025-8-4" = None /\
  fromisoformat "2025-0804" = None /\
  fromisoformat "2025-08-04x" = None.
Proof. repeat split; reflexivity. Qed.

Example isoformat_error_ex :
  date_fromisoformat (PyStr "2025-13-01") = Raise (ValueError "month must be in 1..12") /\
  date_fromisoformat (PyStr "2025-02-30")
  = Raise (ValueError "day is out of range for month") /\
  date_fromisoformat (PyStr "0000-01-01") = Raise (ValueError "year 0 is out of range") /\
  date_fromisoformat (PyStr "9999-W52-7")
  = Raise (ValueError "year 10000 is out of range") /\
  date_fromisoformat (PyStr "08-04-2025")
  = Raise (ValueError "Invalid isoformat string: '08-04-2025'").
Proof. repeat split; reflexivity. Qed.

Example is_manifest_ex :
  is_manifest "data/works/MANIFEST" = true /\ is_manifest "data/works/manifest.gz" = false.
Proof. split; reflexivity. Qed.

Example local_name_ex : local_name key_0804 = "updated_date=2025-08-04_part_000.gz".
Proof. reflexivity. Qed.

(** The other ways to an empty staging directory: [parts] leaves no
    file, or no size can be read.  In both the statement is run and its
    error is the call's. *)
Example empty_selection_by_parts_or_lookups :
  let by_parts :=
    load_table sample_parser august_world
      (mkargs (PyStr "works") PyNone PyNone (PyStr "2025-08-04") (PyStr "2025-08-05")
              (PyList [PyInt 7]) "./.cache/oa") empty_state in
  let by_lookups :=
    load_table sample_parser
      (sample_world (pages_of [key_0804; key_0805]) [key_0804; key_0805])
      (works_between "2025-08-04" "2025-08-05") empty_state in
  fst by_parts = Raise (DuckDBError "IO Error: No files found that match the pattern") /\
  List.length (writes_of "works" (trace (snd by_parts))) = 0%nat /\
  existsb (fun ev => match ev with Execute _ None => true | _ => false end)
          (trace (snd by_parts)) = true /\
  fst by_lookups = Raise (DuckDBError "IO Error: No files found that match the pattern") /\
  existsb (fun ev => match ev with Execute _ None => true | _ => false end)
          (trace (snd by_lookups)) = true /\
  List.length (log (snd by_lookups)) = 2%nat.
Proof. vm_compute. repeat split; reflexivity. Qed.

(* ===================================================================== *)
(** * Further properties of the code                                      *)
(* ===================================================================== *)

(** ** Dates *)

Lemma date_lt_spec (a b : date) :
  date_lt a b = true <->
  (year a < year b \/
   (year a = year b /\ (month a < month b \/ (month a = month b /\ day a < day b)))).
Proof.
  unfold date_lt.
  rewrite !orb_true_iff, !andb_true_iff, !orb_true_iff, !andb_true_iff.
  rewrite !Z.ltb_lt, !Z.eqb_eq. reflexivity.
Qed.

Lemma date_le_spec (a b : date) :
  date_le a b = true <->
  (year a < year b \/
   (year a = year b /\ (month a < month b \/ (month a = month b /\ day a <= day b)))).
Proof.
  unfold date_le. rewrite negb_true_iff, <- not_true_iff_false, date_lt_spec. lia.
Qed.

Lemma date_le_trans (a b c : date) :
  date_le a b = true -> date_le b c = true -> date_le a c = true.
Proof. rewrite !date_le_spec. lia. Qed.

Lemma date_lt_le_trans (a b c : date) :
  date_lt a b = true -> date_le b c = true -> date_lt a c = true.
Proof. rewrite !date_lt_spec, date_le_spec. lia. Qed.

Lemma date_le_lt_trans (a b c : date) :
  date_le a b = true -> date_lt b c = true -> date_lt a c = true.
Proof. rewrite !date_lt_spec, date_le_spec. lia. Qed.

Lemma date_le_antisym (a b : date) :
  date_le a b = true -> date_le b a = true -> a = b.
Proof.
  rewrite !date_le_spec. destruct a as [ya ma da], b as [yb mb db]. cbn.
  intros H1 H2. f_equal; lia.
Qed.

Lemma date_lt_false_le (a b : date) : date_lt a b = false <-> date_le b a = true.
Proof. unfold date_le. now rewrite negb_true_iff. Qed.

(** ** [__get_files]: when it returns, and what *)

Lemma get_files_pages_iff (sd ed : date) (pages : list page) (l : list string) :
  get_files_pages sd ed pages [] = Ok l <->
  forallb passable (listed_keys pages) = true /\ l = files_in_range_spec sd ed pages.
Proof.
  split.
  - intros H. destruct (forallb passable (listed_keys pages)) eqn:E.
    + rewrite get_files_pages_ok in H by assumption. cbn in H.
      split; [reflexivity | congruence].
    + destruct (get_files_pages_raises sd ed pages [] E) as [msg Hm]. congruence.
  - intros [Hall ->]. now rewrite get_files_pages_ok.
Qed.

(** X1: with two ISO dates as bounds, [__get_files] returns a list
    exactly when every non-manifest key of the listing carries a calendar
    date, and the list is then the keys dated inside the window, bounds
    included, in listing order. *)
Theorem get_files_returns_iff_all_dated
    (w : world) (ot s e : string) (sd ed : date) (st : state) (l : list string) :
  fromisoformat s = Some sd -> fromisoformat e = Some ed ->
  (fst (get_files w ot (PyStr s) (PyStr e) st) = Ok l <->
   forallb passable (listed_keys (list_objects_v2 w ("data/" ++ ot ++ "/"))) = true /\
   l = files_in_range_spec sd ed (list_objects_v2 w ("data/" ++ ot ++ "/"))).
Proof.
  intros Hs He. rewrite (get_files_run w ot s e sd ed st Hs He). cbn [fst].
  apply get_files_pages_iff.
Qed.

Lemma get_files_returns_iff_all_dated_witness :
  fst (get_files august_world "works" (PyStr "2025-08-05") (PyStr "2025-08-05")
         empty_state) = Ok [key_0805] <->
  forallb passable (listed_keys (list_objects_v2 august_world ("data/" ++ "works" ++ "/")))
  = true /\
  [key_0805] = files_in_range_spec (mkdate 2025 8 5) (mkdate 2025 8 5)
                 (list_objects_v2 august_world ("data/" ++ "works" ++ "/")).
Proof.
  exact (get_files_returns_iff_all_dated august_world "works" "2025-08-05" "2025-08-05"
           (mkdate 2025 8 5) (mkdate 2025 8 5) empty_state [key_0805] eq_refl eq_refl).
Defined.

(** *** Pages *)

Lemma get_files_objs_app (sd ed : date) (a b : list s3_object) (acc : list string) :
  get_files_objs sd ed (a ++ b) acc =
  match get_files_objs sd ed a acc with
  | Ok acc' => get_files_objs sd ed b acc'
  | Raise e => Raise e
  end.
Proof.
  revert acc; induction a as [|o a IH]; intros acc; [reflexivity |].
  cbn [app get_files_objs].
  destruct (is_manifest (Key o)); [apply IH |].
  destruct (date_fromisoformat (PyStr (extract_date (Key o)))) as [d|e]; [| reflexivity].
  destruct (date_le sd d && date_le d ed)%bool; apply IH.
Qed.

Lemma get_start_date_objs_app (today_ : date) (a b : list s3_object) :
  get_start_date_objs today_ (a ++ b) =
  match get_start_date_objs today_ a with
  | Ok None => get_start_date_objs today_ b
  | r => r
  end.
Proof.
  induction a as [|o a IH]; [reflexivity |].
  cbn [app get_start_date_objs].
  destruct (is_manifest (Key o)); [apply IH |].
  destruct (negb (String.eqb (extract_date (Key o)) "")); [| apply IH].
  destruct (date_fromisoformat (PyStr (extract_date (Key o)))) as [d|e]; [| reflexivity].
  destruct (date_lt d today_); [reflexivity | apply IH].
Qed.

(** X2: paging is transparent.  Both loops over the pages of a listing
    give what the inner loop gives on the entries of all pages put end to
    end; a page without [Contents] counts as empty, and how the entries
    are cut into pages does not matter. *)
Theorem paging_is_transparent (sd ed : date) (pages : list page) (acc : list string) :
  get_files_pages sd ed pages acc
  = get_files_objs sd ed (List.concat (List.map page_contents pages)) acc /\
  get_start_date_pages sd pages
  = get_start_date_objs sd (List.concat (List.map page_contents pages)).
Proof.
  split.
  - revert acc; induction pages as [|p ps IH]; intros acc; [reflexivity |].
    cbn [get_files_pages List.map List.concat]. rewrite get_files_objs_app.
    destruct (get_files_objs sd ed (page_contents p) acc); [apply IH | reflexivity].
  - induction pages as [|p ps IH]; [reflexivity |].
    cbn [get_start_date_pages List.map List.concat]. rewrite get_start_date_objs_app.
    destruct (get_start_date_objs sd (page_contents p)) as [[dat|]|e];
      [reflexivity | exact IH | reflexivity].
Qed.

(** *** The window *)

Lemma in_range_widen (sd ed sd' ed' : date) (key : string) :
  date_le sd' sd = true -> date_le ed ed' = true ->
  in_range sd ed key = true -> in_range sd' ed' key = true.
Proof.
  intros Hs He. unfold in_range. destruct (key_date key) as [d|]; [| discriminate].
  rewrite !andb_true_iff. intros [H1 H2]. split.
  - eapply date_le_trans; eassumption.
  - eapply date_le_trans; eassumption.
Qed.

(** X3: a wider window selects at least as much.  If [__get_files]
    returns for a window, it returns for every window that contains it,
    and every key of the first list is in the second. *)
Theorem get_files_monotone_in_window
    (sd ed sd' ed' : date) (pages : list page) (l : list string) :
  date_le sd' sd = true -> date_le ed ed' = true ->
  get_files_pages sd ed pages [] = Ok l ->
  exists l', get_files_pages sd' ed' pages [] = Ok l' /\
             forall key, In key l -> In key l'.
Proof.
  intros Hs He H. apply get_files_pages_iff in H as [Hall ->].
  exists (files_in_range_spec sd' ed' pages). split.
  - now apply get_files_pages_iff.
  - intros key. unfold files_in_range_spec. rewrite !filter_In.
    intros [Hin Hr]. split; [exact Hin |]. eapply in_range_widen; eassumption.
Qed.

Lemma get_files_monotone_in_window_witness :
  exists l', get_files_pages (mkdate 2025 8 1) (mkdate 2025 8 31)
               (pages_of [key_manifest; key_0804; key_0805]) [] = Ok l' /\
             forall key, In key [key_0805] -> In key l'.
Proof.
  exact (get_files_monotone_in_window
           (mkdate 2025 8 5) (mkdate 2025 8 5) (mkdate 2025 8 1) (mkdate 2025 8 31)
           (pages_of [key_manifest; key_0804; key_0805]) [key_0805]
           eq_refl eq_refl eq_refl).
Defined.

(** X4: an inverted window is not an error.  With the start after the
    end, [__get_files] still reads the whole listing (and still raises
    on a key without a date), and when it returns the list is empty. *)
Theorem get_files_inverted_window_is_empty
    (sd ed : date) (pages : list page) (l : list string) :
  date_lt ed sd = true ->
  get_files_pages sd ed pages [] = Ok l -> l = [].
Proof.
  intros Hinv H. apply get_files_pages_iff in H as [_ ->].
  unfold files_in_range_spec.
  induction (List.filter (fun k => negb (is_manifest k)) (listed_keys pages))
    as [|key keys IH]; [reflexivity |].
  cbn [List.filter]. unfold in_range at 1.
  destruct (key_date key) as [d|]; [| exact IH].
  destruct (date_le sd d && date_le d ed)%bool eqn:E; [| exact IH].
  apply andb_prop in E as [H1 H2].
  pose proof (date_le_trans _ _ _ H1 H2) as Hle.
  unfold date_le in Hle. rewrite Hinv in Hle. discriminate.
Qed.

Lemma get_files_inverted_window_is_empty_witness :
  get_files_pages (mkdate 2025 8 5) (mkdate 2025 8 4)
    (pages_of [key_manifest; key_0804; key_0805]) [] = Ok [] /\
  @nil string = [].
Proof.
  split; [reflexivity |].
  exact (get_files_inverted_window_is_empty (mkdate 2025 8 5) (mkdate 2025 8 4)
           (pages_of [key_manifest; key_0804; key_0805]) [] eq_refl eq_refl).
Defined.

(** X5: [__get_files] converts both bounds before it asks for the
    listing.  If either bound is not an ISO date text (a [date] object,
    [None], a malformed text), the call raises and no request has been
    sent: the state, I/O trace included, is as before. *)
Theorem get_files_checks_bounds_before_listing
    (w : world) (ot : string) (start_date end_date : pyval) (st : state) :
  (is_ok (date_fromisoformat start_date) && is_ok (date_fromisoformat end_date))%bool
  = false ->
  exists e, get_files w ot start_date end_date st = (Raise e, st) /\
            match e with TypeError _ | ValueError _ => True | _ => False end.
Proof.
  assert (Hcls : forall v e, date_fromisoformat v = Raise e ->
                 match e with TypeError _ | ValueError _ => True | _ => False end).
  { intros v e. destruct v as [| | | |s| |]; cbn [date_fromisoformat];
      try (intros [= <-]; exact I).
    destruct (fromisoformat s); [discriminate | intros [= <-]; exact I]. }
  intros H. unfold get_files, bind, lift.
  destruct (date_fromisoformat start_date) as [sd|e1] eqn:E1.
  - destruct (date_fromisoformat end_date) as [ed|e2] eqn:E2; [discriminate H |].
    exists e2. split; [reflexivity | exact (Hcls _ _ E2)].
  - exists e1. split; [reflexivity | exact (Hcls _ _ E1)].
Qed.

Lemma get_files_checks_bounds_before_listing_witness :
  exists e,
    get_files august_world "works" (PyStr "2025-08-04") (PyDate (mkdate 2025 8 10))
      empty_state = (Raise e, empty_state) /\
    match e with TypeError _ | ValueError _ => True | _ => False end.
Proof.
  exact (get_files_checks_bounds_before_listing august_world "works"
           (PyStr "2025-08-04") (PyDate (mkdate 2025 8 10)) empty_state eq_refl).
Defined.

(** ** The loop of [__get_start_date] *)

Lemma get_start_date_pages_concat (today_ : date) (pages : list page) :
  get_start_date_pages today_ pages
  = get_start_date_objs today_ (List.concat (List.map page_contents pages)).
Proof.
  induction pages as [|p ps IH]; [reflexivity |].
  cbn [get_start_date_pages List.map List.concat]. rewrite get_start_date_objs_app.
  destruct (get_start_date_objs today_ (page_contents p)) as [[dat|]|e];
    [reflexivity | exact IH | reflexivity].
Qed.

Lemma get_start_date_objs_sound (today_ : date) (objs : list s3_object) (dat : string) :
  get_start_date_objs today_ objs = Ok (Some dat) ->
  exists key d,
    In key (List.map Key objs) /\ is_manifest key = false /\
    extract_date key = dat /\ fromisoformat dat = Some d /\ date_lt d today_ = true.
Proof.
  induction objs as [|o objs IH]; [discriminate |].
  cbn [get_start_date_objs List.map].
  assert (Hrest : get_start_date_objs today_ objs = Ok (Some dat) ->
                  exists key d, In key (Key o :: List.map Key objs) /\
                    is_manifest key = false /\ extract_date key = dat /\
                    fromisoformat dat = Some d /\ date_lt d today_ = true).
  { intros H. destruct (IH H) as (key & d & Hin & Hrest).
    exists key, d. split; [now right | exact Hrest]. }
  destruct (is_manifest (Key o)) eqn:Hm; [exact Hrest |].
  destruct (negb (String.eqb (extract_date (Key o)) "")); [| exact Hrest].
  rewrite date_fromisoformat_extract. unfold key_date.
  destruct (fromisoformat (extract_date (Key o))) as [d|] eqn:Hd; [| discriminate].
  destruct (date_lt d today_) eqn:Hlt; [| exact Hrest].
  intros [= <-]. exists (Key o), d. split; [now left | auto].
Qed.

(** X6: what the loop of [__get_start_date] returns is sound.  A text
    it returns is the text extracted from a non-manifest key of the
    listing, it is a calendar date, and that date is strictly before
    today; a manifest key is never the source. *)
Theorem get_start_date_loop_sound (today_ : date) (pages : list page) (dat : string) :
  get_start_date_pages today_ pages = Ok (Some dat) ->
  exists key d,
    In key (listed_keys pages) /\ is_manifest key = false /\
    extract_date key = dat /\ fromisoformat dat = Some d /\ date_lt d today_ = true.
Proof.
  rewrite get_start_date_pages_concat. apply get_start_date_objs_sound.
Qed.

Lemma get_start_date_loop_sound_witness :
  exists key d,
    In key (listed_keys (pages_of [key_manifest; key_0804; key_0805])) /\
    is_manifest key = false /\
    extract_date key = "2025-08-04" /\ fromisoformat "2025-08-04" = Some d /\
    date_lt d (mkdate 2025 8 10) = true.
Proof.
  exact (get_start_date_loop_sound (mkdate 2025 8 10)
           (pages_of [key_manifest; key_0804; key_0805]) "2025-08-04" eq_refl).
Defined.

(** *** On a listing in date order *)

Lemma min_date_below_in (bound m : date) (ds : list date) :
  min_date_below bound ds = Some m -> In m ds.
Proof.
  revert m; induction ds as [|d ds IH]; intros m; [discriminate |].
  cbn [min_date_below].
  destruct (min_date_below bound ds) as [m'|].
  - destruct (date_lt d bound && date_lt d m')%bool; intros [= <-];
      [now left | right; now apply IH].
  - destruct (date_lt d bound); [intros [= <-]; now left | discriminate].
Qed.

Lemma nondecreasing_tail (d : date) (ds : list date) :
  nondecreasing (d :: ds) = true -> nondecreasing ds = true.
Proof.
  destruct ds as [|d2 ds]; [reflexivity |].
  cbn [nondecreasing]. intros H. now apply andb_prop in H as [_ H].
Qed.

Lemma nondecreasing_head_le (d : date) (ds : list date) :
  nondecreasing (d :: ds) = true -> forall x, In x ds -> date_le d x = true.
Proof.
  revert d; induction ds as [|d2 ds IH]; intros d H x Hin; [contradiction |].
  cbn [nondecreasing] in H. apply andb_prop in H as [H12 Hrest].
  destruct Hin as [<-|Hin]; [exact H12 |].
  eapply date_le_trans; [exact H12 | now apply IH].
Qed.

Lemma min_date_below_sorted_head (bound d : date) (ds : list date) :
  nondecreasing (d :: ds) = true -> date_lt d bound = true ->
  min_date_below bound (d :: ds) = Some d.
Proof.
  intros Hs Hlt. cbn [min_date_below]. rewrite Hlt.
  destruct (min_date_below bound ds) as [m|] eqn:Hm; [| reflexivity].
  cbn [andb]. destruct (date_lt d m) eqn:Hdm; [reflexivity |].
  f_equal. apply date_le_antisym.
  - now apply date_lt_false_le.
  - apply (nondecreasing_head_le d ds Hs). now apply (min_date_below_in bound).
Qed.

Lemma min_date_below_skip (bound d : date) (ds : list date) :
  date_lt d bound = false ->
  min_date_below bound (d :: ds) = min_date_below bound ds.
Proof.
  intros Hlt. cbn [min_date_below]. rewrite Hlt.
  now destruct (min_date_below bound ds).
Qed.

Lemma dates_of_cons (k : string) (keys : list string) :
  dates_of (k :: keys) =
  if is_manifest k then dates_of keys
  else match key_date k with
       | Some d => d :: dates_of keys
       | None => dates_of keys
       end.
Proof.
  unfold dates_of. cbn [List.filter].
  destruct (is_manifest k); cbn [negb]; [reflexivity |].
  cbn. now destruct (key_date k).
Qed.

Lemma get_start_date_objs_sorted (today_ : date) (objs : list s3_object) :
  forallb startable (List.map Key objs) = true ->
  nondecreasing (dates_of (List.map Key objs)) = true ->
  exists r, get_start_date_objs today_ objs = Ok r /\
            (r ≫= fromisoformat) = min_date_below today_ (dates_of (List.map Key objs)).
Proof.
  induction objs as [|o objs IH]; intros Hall Hs.
  - exists None. split; reflexivity.
  - cbn [List.map forallb] in Hall. apply andb_prop in Hall as [Ho Hall].
    cbn [List.map get_start_date_objs] in *. rewrite dates_of_cons in *.
    unfold startable in Ho.
    destruct (is_manifest (Key o)) eqn:Hm; [now apply IH |].
    cbn [orb] in Ho.
    destruct (String.eqb_spec (extract_date (Key o)) "") as [He|Hne]; cbn [negb].
    + assert (Hk : key_date (Key o) = None) by (unfold key_date; now rewrite He).
      rewrite Hk in *. now apply IH.
    + cbn [orb] in Ho. apply bool_decide_eq_true in Ho as [d Hd].
      rewrite date_fromisoformat_extract, Hd. rewrite Hd in Hs.
      destruct (date_lt d today_) eqn:Hlt.
      * exists (Some (extract_date (Key o))). split; [reflexivity |].
        rewrite min_date_below_sorted_head by assumption. exact Hd.
      * destruct (IH Hall (nondecreasing_tail _ _ Hs)) as (r & Hr & Hmin).
        exists r. split; [exact Hr |]. now rewrite min_date_below_skip.
Qed.

(** X7: on a listing in date order the early return gives the minimum.
    If every non-manifest key is either without the pattern or carries a
    calendar date, and the dates never go back along the listing, the
    loop of [__get_start_date] returns without raising, and its result
    is the earliest listed date strictly before today, or [None] when
    there is none. *)
Theorem get_start_date_loop_minimum_when_sorted (today_ : date) (pages : list page) :
  forallb startable (listed_keys pages) = true ->
  nondecreasing (listed_dates pages) = true ->
  exists r, get_start_date_pages today_ pages = Ok r /\
            (r ≫= fromisoformat) = min_date_below today_ (listed_dates pages).
Proof.
  rewrite get_start_date_pages_concat. apply get_start_date_objs_sorted.
Qed.

Lemma get_start_date_loop_minimum_when_sorted_witness :
  exists r,
    get_start_date_pages (mkdate 2025 8 10)
      (pages_of [key_manifest; key_readme; key_0804; key_0805]) = Ok r /\
    (r ≫= fromisoformat)
    = min_date_below (mkdate 2025 8 10)
        (listed_dates (pages_of [key_manifest; key_readme; key_0804; key_0805])).
Proof.
  exact (get_start_date_loop_minimum_when_sorted (mkdate 2025 8 10)
           (pages_of [key_manifest; key_readme; key_0804; key_0805]) eq_refl eq_refl).
Defined.

(** ** [load_table]: validation *)

Lemma validate_cases (a : load_args) (st : state) :
  match fst (validate a st) with
  | Ok ot => obj_type a = PyStr ot /\ args_valid a = true
  | Raise e => args_valid a = false /\ is_assertion_or_value_error e = true
  end.
Proof.
  destruct a as [ot cs lim sd ed ps dir].
  unfold args_valid, validate, bind, raise_if, bad_date_fmt, check_date_fmt,
    date_fromisoformat, not_all, iso_or_none, list_of_or_none, lift, ret, raise.
  cbn [obj_type cols limit start_date end_date parts download_dir].
  destruct ot; try (split; reflexivity).
  destruct (existsb (String.eqb s) accepted_types); [| split; reflexivity].
  destruct sd as [| | | |s1| |]; try (split; reflexivity);
    (destruct ed as [| | | |s2| |]; try (split; reflexivity));
    try (destruct (fromisoformat s1); [| split; reflexivity]);
    try (destruct (fromisoformat s2); [| split; reflexivity]).
  all: destruct ps as [| | | | |l1|]; try (split; reflexivity).
  all: try (destruct (forallb isinstance_int l1); [| split; reflexivity]).
  all: destruct cs as [| | | | |l2|]; try (split; reflexivity).
  all: try (destruct (forallb isinstance_str l2); [| split; reflexivity]).
  all: destruct lim; split; reflexivity.
Qed.

(** X8: [load_table] checks its arguments before anything else.  If the
    entity type is not a text of the accepted set, a date is neither
    omitted nor an ISO date text, [parts] is neither omitted nor a list
    of integers, [cols] is neither omitted nor a list of strings, or
    [limit] is neither omitted nor an integer, the call raises
    [AssertionError] or [ValueError] and leaves the state as it found it:
    no directory made, no request sent, no statement run.  Otherwise
    validation passes. *)
Theorem load_table_rejects_invalid_arguments
    (self : OpenAlexParser) (w : world) (a : load_args) (st : state) :
  (args_valid a = false ->
   exists e, load_table self w a st = (Raise e, st) /\
             is_assertion_or_value_error e = true) /\
  (args_valid a = true ->
   exists ot, obj_type a = PyStr ot /\ validate a st = (Ok ot, st)).
Proof.
  pose proof (validate_cases a st) as H. split; intros Hv.
  - destruct (fst (validate a st)) as [ot|e] eqn:E.
    + destruct H as [_ H]. congruence.
    + exists e. split; [now apply load_table_invalid_fails_fast | apply H].
  - destruct (fst (validate a st)) as [ot|e] eqn:E.
    + exists ot. split; [apply H |]. rewrite validate_state.
      rewrite validate_state in E. cbn [fst] in E. now rewrite E.
    + destruct H as [H _]. congruence.
Qed.

Lemma load_table_rejects_invalid_arguments_witness :
  (exists e, load_table sample_parser august_world bogus_call empty_state
             = (Raise e, empty_state) /\
             is_assertion_or_value_error e = true) /\
  (exists ot, obj_type august_call = PyStr ot /\
              validate august_call empty_state = (Ok ot, empty_state)).
Proof.
  split.
  - exact (proj1 (load_table_rejects_invalid_arguments
                    sample_parser august_world bogus_call empty_state) eq_refl).
  - exact (proj2 (load_table_rejects_invalid_arguments
                    sample_parser august_world august_call empty_state) eq_refl).
Defined.

(** The date texts validation lets through are the ones
    [date.fromisoformat] reads: the compact and the ISO week forms too,
    whatever the message says about [YYYY-mm-dd]. *)
Example args_valid_date_forms :
  args_valid (works_between "20250804" "2025-W32-2") = true /\
  fst (validate (works_between "20250804" "2025-W32-2") empty_state) = Ok "works" /\
  args_valid (works_between "2025-8-4" "2025-08-05") = false /\
  args_valid (works_between "2025-08-04" "2025-02-30") = false /\
  args_valid works_from_bad_date = false.
Proof. repeat split; reflexivity. Qed.

(** ** [load_table]: what a call changes *)

Lemma stage_obj_type (self : OpenAlexParser) (w : world) (a : load_args)
    (st st1 : state) (ot : string) :
  stage self w a st = (Ok ot, st1) -> obj_type a = PyStr ot.
Proof.
  intros H. apply stage_validated in H.
  pose proof (validate_cases a st) as Hc. rewrite H in Hc. apply Hc.
Qed.

Lemma load_table_all_or_nothing (self : OpenAlexParser) (w : world) (a : load_args)
    (st : state) :
  match fst (load_table self w a st) with
  | Raise _ => catalog (snd (load_table self w a st)) = catalog st
  | Ok _ =>
      exists ot,
        obj_type a = PyStr ot /\
        catalog (snd (load_table self w a st))
        = stored self ot (rows_read self w a st) (catalog st)
  end.
Proof.
  pose proof (preserves_stage self w a st) as (Hcat & _ & _).
  unfold rows_read. rewrite load_table_run.
  destruct (stage self w a st) as [[ot|e] st1] eqn:Hst; cbn [snd] in Hcat.
  - cbv zeta.
    destruct (read_ndjson_auto w (select_of w a ot) (files_of st1 (download_dir a)))
      as [rs|e]; cbn [fst snd catalog].
    + exists ot. split; [now apply stage_obj_type in Hst | now rewrite Hcat].
    + exact Hcat.
  - cbn [fst snd]. exact Hcat.
Qed.



Example rows_read_ex :
  rows_read sample_parser august_world august_call empty_state
  = ["{record of " ++ key_0805 ++ "}"; "{record of " ++ key_0804 ++ "}"] /\
  rows_read sample_parser august_world january_call empty_state = [].
Proof. vm_compute. split; reflexivity. Qed.

(** X11: a call for one entity type leaves the tables of every other
    name alone, whether it returns or raises. *)
Theorem load_table_leaves_other_tables
    (self : OpenAlexParser) (w : world) (a : load_args) (st : state) (t : string) :
  obj_type a <> PyStr t ->
  tables_named t (catalog (snd (load_table self w a st)))
  = tables_named t (catalog st).
Proof.
  intros Hne. pose proof (load_table_all_or_nothing self w a st) as H.
  destruct (fst (load_table self w a st)) as [[]|e].
  - destruct H as (ot & Hot & ->). apply stored_other. congruence.
  - now rewrite H.
Qed.

Lemma load_table_leaves_other_tables_witness :
  tables_named "authors"
    (catalog (snd (load_table sample_parser august_world august_call empty_state)))
  = tables_named "authors" (catalog empty_state).
Proof.
  apply (load_table_leaves_other_tables sample_parser august_world august_call
           empty_state "authors").
  discriminate.
Defined.

(** ** [load_table]: the staging directory *)




(** *** What is in it *)

Section Frame.
(** A relation between the state before and after that every step of
    the staging phase respects. *)
Variable R : state -> state -> Prop.
Hypothesis R_refl : forall st, R st st.
Hypothesis R_trans : forall a b c, R a b -> R b c -> R a c.
Hypothesis R_emit : forall e, preserves R (emit e).
Hypothesis R_log : forall line, preserves R (progress_log line).
Hypothesis R_write : forall dir name body, preserves R (write_file dir name body).
Hypothesis R_makedirs : forall dir, preserves R (makedirs dir).









End Frame.





Example leftover_file_becomes_a_row :
  rows_of "works"
    (catalog (snd (load_table sample_parser august_world january_call leftover_state)))
  = ["{old record}"].
Proof. vm_compute. reflexivity. Qed.

(** ** The pool: the order of the downloads *)

Lemma staged_file_comm (w : world) (files : gmap string string) (x y : string) :
  local_name x <> local_name y ->
  staged_file w (staged_file w files x) y = staged_file w (staged_file w files y) x.
Proof.
  intros Hne. unfold staged_file.
  destruct (download_file w x) as [bx|], (download_file w y) as [by_|]; try reflexivity.
  now apply insert_insert_ne.
Qed.

Lemma staged_perm (w : world) (keys keys' : list string) :
  Permutation keys keys' ->
  List.NoDup (List.map local_name keys) ->
  forall files, staged w keys files = staged w keys' files.
Proof.
  induction 1 as [| x l l' Hp IH | x y l | l l' l'' Hp1 IH1 Hp2 IH2]; intros Hnd files.
  - reflexivity.
  - rewrite !staged_cons. apply IH. cbn [List.map] in Hnd.
    now apply List.NoDup_cons_iff in Hnd.
  - rewrite !staged_cons. f_equal. symmetry. apply staged_file_comm.
    cbn [List.map] in Hnd. apply List.NoDup_cons_iff in Hnd as [Hy _].
    intros Heq. apply Hy. rewrite Heq. now left.
  - rewrite IH1 by assumption. apply IH2.
    exact (Permutation_NoDup (Permutation_map local_name Hp1) Hnd).
Qed.

Lemma filter_perm {A} (f : A -> bool) (l l' : list A) :
  Permutation l l' -> Permutation (List.filter f l) (List.filter f l').
Proof.
  induction 1 as [| x l l' Hp IH | x y l | l l' l'' Hp1 IH1 Hp2 IH2]; cbn [List.filter].
  - constructor.
  - destruct (f x); [now constructor | exact IH].
  - destruct (f x), (f y); try reflexivity. apply perm_swap.
  - etransitivity; eassumption.
Qed.

Lemma NoDup_map_filter {A B} (g : A -> B) (f : A -> bool) (l : list A) :
  List.NoDup (List.map g l) -> List.NoDup (List.map g (List.filter f l)).
Proof.
  induction l as [|x l IH]; cbn [List.map List.filter]; [auto |].
  intros Hnd. apply List.NoDup_cons_iff in Hnd as [Hx Hl].
  destruct (f x); cbn [List.map]; [| now apply IH].
  apply List.NoDup_cons_iff. split; [| now apply IH].
  intros Hin. apply Hx.
  apply List.in_map_iff in Hin as (z & Hz & Hin).
  apply List.in_map_iff. exists z. split; [exact Hz |].
  apply filter_In in Hin. tauto.
Qed.

(** X13: the order in which the pool runs its tasks does not matter
    when the submitted keys have different local names.  Whatever order
    the tasks of [futures] are run in, the pool returns, and the files,
    the tables and the progress log are the same at the end.  (Each task
    writes its file in one piece; the development runs the tasks in the
    order of submission.) *)
Theorem pool_order_is_immaterial
    (w : world) (dir : string) (futures order : list string) (st : state) :
  Permutation futures order ->
  List.NoDup (List.map local_name futures) ->
  fst (run_pool w dir order st) = fst (run_pool w dir futures st) /\
  fs (snd (run_pool w dir order st)) = fs (snd (run_pool w dir futures st)) /\
  catalog (snd (run_pool w dir order st)) = catalog (snd (run_pool w dir futures st)) /\
  log (snd (run_pool w dir order st)) = log (snd (run_pool w dir futures st)).
Proof.
  intros Hp Hnd.
  destruct (run_pool_effect w dir futures st) as (st1 & Hr1 & Hl1 & _ & Hf1).
  destruct (run_pool_effect w dir order st) as (st2 & Hr2 & Hl2 & _ & Hf2).
  pose proof (preserves_run_pool w dir futures st) as (Hc1 & _ & _).
  pose proof (preserves_run_pool w dir order st) as (Hc2 & _ & _).
  rewrite Hr1 in *. rewrite Hr2 in *. cbn [fst snd] in *.
  split; [reflexivity |]. split; [| split; congruence].
  rewrite Hf1, Hf2. destruct (fs st !! dir) as [files|]; [| reflexivity].
  f_equal. symmetry. apply staged_perm.
  - now apply filter_perm.
  - now apply NoDup_map_filter.
Qed.

(** X13 on the two files the sample call fetches, in either order. *)
Lemma pool_order_is_immaterial_witness :
  let st := snd (makedirs "./.cache/oa" empty_state) in
  fst (run_pool lossy_world "./.cache/oa" [key_0806; key_0804] st)
  = fst (run_pool lossy_world "./.cache/oa" [key_0804; key_0806] st) /\
  fs (snd (run_pool lossy_world "./.cache/oa" [key_0806; key_0804] st))
  = fs (snd (run_pool lossy_world "./.cache/oa" [key_0804; key_0806] st)) /\
  catalog (snd (run_pool lossy_world "./.cache/oa" [key_0806; key_0804] st))
  = catalog (snd (run_pool lossy_world "./.cache/oa" [key_0804; key_0806] st)) /\
  log (snd (run_pool lossy_world "./.cache/oa" [key_0806; key_0804] st))
  = log (snd (run_pool lossy_world "./.cache/oa" [key_0804; key_0806] st)).
Proof.
  apply (pool_order_is_immaterial lossy_world "./.cache/oa"
           [key_0804; key_0806] [key_0806; key_0804]).
  - apply perm_swap.
  - vm_compute. repeat constructor; cbn; intuition discriminate.
Defined.

(** Two keys with the same last two segments share a local name: the
    file written last replaces the other, and one record is lost. *)
Example colliding_local_names :
  local_name key_legacy = local_name key_0805 /\
  let w := sample_world (pages_of [key_legacy; key_0805]) [] in
  let r := load_table sample_parser w (works_between "2025-08-05" "2025-08-05")
             empty_state in
  fst r = Ok tt /\
  downloads_of (trace (snd r)) = [key_legacy; key_0805] /\
  rows_of "works" (catalog (snd r)) = ["{record of " ++ key_0805 ++ "}"].
Proof. vm_compute. repeat split; reflexivity. Qed.

(** ** Keys: the last segments *)

Lemma split_on_nonempty (sep : ascii) (s : string) : split_on sep s <> [].
Proof.
  destruct s as [|c s]; cbn [split_on]; [discriminate |].
  destruct (Ascii.eqb c sep); [discriminate |].
  destruct (split_on sep s); discriminate.
Qed.

Lemma split_on_no_sep (sep : ascii) (s : string) :
  has_char sep s = false -> split_on sep s = [s].
Proof.
  induction s as [|c s IH]; [reflexivity |].
  cbn [has_char split_on]. intros H. apply orb_false_elim in H as [Hc Hs].
  now rewrite Hc, (IH Hs).
Qed.

Lemma split_on_segments (sep : ascii) (s seg : string) :
  In seg (split_on sep s) -> has_char sep seg = false.
Proof.
  revert seg; induction s as [|c s IH]; intros seg.
  - cbn. intros [<-|[]]. reflexivity.
  - cbn [split_on]. destruct (Ascii.eqb c sep) eqn:Hc.
    + intros [<-|Hin]; [reflexivity | now apply IH].
    + destruct (split_on sep s) as [|x xs] eqn:E.
      * intros [<-|[]]. cbn. now rewrite Hc.
      * intros [<-|Hin].
        -- cbn [has_char]. rewrite Hc. apply IH. now left.
        -- apply IH. now right.
Qed.

Lemma split_on_snoc (sep : ascii) (p seg : string) :
  has_char sep seg = false ->
  split_on sep (p ++ String sep seg) = (split_on sep p ++ [seg])%list.
Proof.
  intros Hseg. induction p as [|c p IH].
  - cbn [String.append split_on]. rewrite Ascii.eqb_refl.
    now rewrite (split_on_no_sep sep seg Hseg).
  - cbn [String.append split_on]. rewrite IH.
    destruct (Ascii.eqb c sep); [reflexivity |].
    pose proof (split_on_nonempty sep p) as Hne.
    destruct (split_on sep p) as [|x xs]; [congruence | reflexivity].
Qed.

Lemma last_seg_snoc (l : list string) (seg : string) : last_seg (l ++ [seg]) = seg.
Proof. unfold last_seg. apply List.last_last. Qed.

Lemma has_char_join (c : ascii) (sep : string) (l : list string) :
  has_char c sep = false ->
  (forall seg, In seg l -> has_char c seg = false) ->
  has_char c (join sep l) = false.
Proof.
  intros Hsep. induction l as [|x l IH]; intros Hl; [reflexivity |].
  cbn [join]. destruct l as [|y l]; [apply Hl; now left |].
  rewrite !has_char_append, Hsep, (Hl x) by now left.
  cbn [orb]. apply IH. intros seg Hin. apply Hl. now right.
Qed.

(** X14: the local name of a download is a plain file name.  Whatever
    the key, the name [__copy_data] builds from its last two segments
    holds no [/], so the file is written directly in the staging
    directory, where the glob of the load statement finds it. *)
Theorem local_name_has_no_slash (key : string) : has_char "/" (local_name key) = false.
Proof.
  unfold local_name, last_two. apply has_char_join; [reflexivity |].
  intros seg Hin. apply (split_on_segments "/" key).
  revert Hin. generalize (List.length (split_on "/" key) - 2)%nat.
  generalize (split_on "/" key). intros l n. revert l.
  induction n as [|n IH]; intros l Hin; [exact Hin |].
  destruct l as [|x l]; [contradiction |]. right. now apply IH.
Qed.

(** X15: what makes a key a manifest is its last segment alone, read
    without regard to letter case.  For a key [prefix/segment] the test
    of both listing loops is whether [segment], lower-cased, is
    [manifest]; the prefix plays no part. *)
Theorem is_manifest_by_last_segment (prefix seg : string) :
  has_char "/" seg = false ->
  is_manifest (prefix ++ "/" ++ seg) = String.eqb (lower seg) "manifest".
Proof.
  intros Hseg. unfold is_manifest.
  change (prefix ++ "/" ++ seg) with (prefix ++ String "/" seg).
  now rewrite split_on_snoc, last_seg_snoc.
Qed.

Lemma is_manifest_by_last_segment_witness :
  is_manifest ("data/manifest/works" ++ "/" ++ "Manifest")
  = String.eqb (lower "Manifest") "manifest".
Proof.
  apply (is_manifest_by_last_segment "data/manifest/works" "Manifest"). reflexivity.
Defined.

(** X16: the local name keeps the last two segments of the key and
    nothing of what precedes them.  For a key [prefix/a/b] it is [a_b];
    two keys that differ only before the date folder (two entity types,
    say) get the same local name. *)
Theorem local_name_of_last_two_segments (prefix a b : string) :
  has_char "/" a = false -> has_char "/" b = false ->
  local_name (prefix ++ "/" ++ a ++ "/" ++ b) = a ++ "_" ++ b.
Proof.
  intros Ha Hb. unfold local_name, last_two.
  replace (prefix ++ "/" ++ a ++ "/" ++ b) with ((prefix ++ String "/" a) ++ String "/" b)
    by (now rewrite append_assoc).
  rewrite split_on_snoc by assumption. rewrite split_on_snoc by assumption.
  rewrite <- app_assoc. cbn [app].
  rewrite length_app. cbn [List.length].
  replace (List.length (split_on "/" prefix) + 2 - 2)%nat
    with (List.length (split_on "/" prefix) + 0)%nat by lia.
  rewrite List.skipn_app, List.skipn_all2 by lia.
  replace (List.length (split_on "/" prefix) + 0 - List.length (split_on "/" prefix))%nat
    with 0%nat by lia.
  reflexivity.
Qed.

Lemma local_name_of_last_two_segments_witness :
  local_name ("data/works" ++ "/" ++ "updated_date=2025-08-04" ++ "/" ++ "part_000.gz")
  = "updated_date=2025-08-04" ++ "_" ++ "part_000.gz" /\
  local_name ("data/authors" ++ "/" ++ "updated_date=2025-08-04" ++ "/" ++ "part_000.gz")
  = "updated_date=2025-08-04" ++ "_" ++ "part_000.gz".
Proof.
  split.
  - apply (local_name_of_last_two_segments "data/works"); reflexivity.
  - apply (local_name_of_last_two_segments "data/authors"); reflexivity.
Defined.

(** ** [__download_files]: the filter on [parts] *)

Lemma filter_parts_iff (l : list pyval) (files r : list string) :
  filter_parts l files = Ok r <->
  forallb numbered files = true /\ r = List.filter (part_in l) files.
Proof.
  revert r; induction files as [|f files IH]; intros r.
  - cbn. split; [intros [= <-]; auto | intros [_ ->]; reflexivity].
  - cbn [filter_parts forallb List.filter]. unfold numbered at 1, part_in at 1.
    destruct (part_number f) as [n|e]; cbn [is_ok andb].
    + destruct (filter_parts l files) as [rest|e].
      * destruct (IH rest) as [Hall _]. destruct (Hall eq_refl) as [Hn ->].
        split.
        -- intros [= <-]. auto.
        -- intros [_ ->]. reflexivity.
      * split; [discriminate |]. intros [Hn _].
        destruct (IH (List.filter (part_in l) files)) as [_ Hback].
        discriminate (Hback (conj Hn eq_refl)).
    + split; [discriminate | intros [? _]; discriminate].
Qed.

(** X17: what the filter on [parts] keeps.  Without [parts] every
    selected key goes on.  With a list of integers (what validation lets
    through) the filter reads the part number off the last segment of
    every selected key, wanted or not: it returns exactly when [int()]
    reads each of them, and then keeps, in order, the keys whose number
    is in the list. *)
Theorem select_parts_keeps_listed_parts (files : list string) (l : list pyval)
    (r : list string) :
  forallb isinstance_int l = true ->
  select_parts (PyStr "*") files = Ok files /\
  (select_parts (PyList l) files = Ok r <->
   forallb numbered files = true /\ r = List.filter (part_in l) files).
Proof.
  intros _. split; [reflexivity |]. cbn. apply filter_parts_iff.
Qed.

(** X17 on the three sample files and the parts 0 and 7. *)
Lemma select_parts_keeps_listed_parts_witness :
  select_parts (PyStr "*") three_files = Ok three_files /\
  (select_parts (PyList [PyInt 0; PyInt 7]) three_files = Ok [key_0804; key_0805] <->
   forallb numbered three_files = true /\
   [key_0804; key_0805] = List.filter (part_in [PyInt 0; PyInt 7]) three_files).
Proof.
  exact (select_parts_keeps_listed_parts three_files [PyInt 0; PyInt 7]
           [key_0804; key_0805] eq_refl).
Defined.

(** X18: a key without a part number stops the call before any
    download.  When [parts] is given and the filter raises, the call has
    sent the listing request and nothing else: no size was asked for, no
    download started, no line logged, no file written. *)
Theorem parts_filter_fails_before_any_download
    (w : world) (ot s e : string) (sd ed : date) (ps : pyval) (dir : string)
    (files0 : list string) (err : exn) (st : state) :
  fromisoformat s = Some sd -> fromisoformat e = Some ed ->
  get_files_pages sd ed (list_objects_v2 w ("data/" ++ ot ++ "/")) [] = Ok files0 ->
  select_parts ps files0 = Raise err ->
  download_files w ot (PyStr s) (PyStr e) ps dir st
  = (Raise err,
     mkstate (fs st) (catalog st) (log st)
             (trace st ++ [ListObjects ("data/" ++ ot ++ "/")])).
Proof.
  intros Hs He Hf Hp. unfold download_files. unfold bind at 1.
  rewrite (get_files_run w ot s e sd ed st Hs He), Hf.
  unfold bind at 1, lift at 1. now rewrite Hp.
Qed.

Lemma parts_filter_fails_before_any_download_witness :
  download_files (sample_world (pages_of [key_marker; key_0804]) []) "works"
    (PyStr "2025-08-04") (PyStr "2025-08-04") (PyList [PyInt 0]) "./.cache/oa"
    empty_state
  = (Raise (ValueError "invalid literal for int() with base 10: '_SUCCESS'"),
     mkstate (fs empty_state) (catalog empty_state) (log empty_state)
             (trace empty_state ++ [ListObjects ("data/" ++ "works" ++ "/")])).
Proof.
  exact (parts_filter_fails_before_any_download
           (sample_world (pages_of [key_marker; key_0804]) []) "works"
           "2025-08-04" "2025-08-04" (mkdate 2025 8 4) (mkdate 2025 8 4)
           (PyList [PyInt 0]) "./.cache/oa" [key_marker; key_0804]
           (ValueError "invalid literal for int() with base 10: '_SUCCESS'")
           empty_state eq_refl eq_refl eq_refl eq_refl).
Defined.

(** *** The part number of a part file *)

Lemma digit_not_space (c : ascii) : is_digit c = true -> is_space c = false.
Proof.
  destruct c as [[] [] [] [] [] [] [] []]; vm_compute; congruence.
Qed.

Lemma digit_not_sign (c : ascii) :
  is_digit c = true ->
  Ascii.eqb c "-" = false /\ Ascii.eqb c "+" = false /\ Ascii.eqb c "_" = false.
Proof.
  destruct c as [[] [] [] [] [] [] [] []]; vm_compute; intuition congruence.
Qed.

(** [replace(old, "")] leaves a run of digits alone when [old] starts
    with another character. *)
Lemma remove_from_digits (o : ascii) (old ds rest : string) :
  is_digit o = false -> all_digits ds = true ->
  remove_from (String o old) 0 (ds ++ rest)
  = ds ++ remove_from (String o old) 0 rest.
Proof.
  intros Ho. induction ds as [|c ds IH]; intros Hds; [reflexivity |].
  cbn [all_digits] in Hds. apply andb_prop in Hds as [Hc Hds].
  cbn [String.append remove_from strip_prefix].
  assert (Hne : Ascii.eqb o c = false).
  { destruct (Ascii.eqb_spec o c) as [->|]; congruence. }
  rewrite Hne. now rewrite IH.
Qed.

Lemma scan_digits_run (acc : Z) (n : nat) (prev : bool) (ds : string) :
  all_digits ds = true ->
  scan_digits acc n prev ds = Some (decimal acc ds, (n + String.length ds)%nat, "").
Proof.
  revert acc n prev; induction ds as [|c ds IH]; intros acc n prev Hds.
  - cbn. now rewrite Nat.add_0_r.
  - cbn [all_digits] in Hds. apply andb_prop in Hds as [Hc Hds].
    cbn [scan_digits decimal String.length]. rewrite Hc, IH by assumption.
    now rewrite Nat.add_succ_r.
Qed.

(** [int()] on a run of digits no longer than the limit. *)
Lemma py_int_digits (ds : string) :
  all_digits ds = true -> ds <> "" ->
  (String.length ds <= int_max_str_digits)%nat ->
  py_int ds = Ok (decimal 0 ds).
Proof.
  intros Hds Hne Hlen. destruct ds as [|c ds]; [congruence |].
  pose proof Hds as Hall. cbn [all_digits] in Hds. apply andb_prop in Hds as [Hc _].
  destruct (digit_not_sign c Hc) as (Hminus & Hplus & _).
  unfold py_int. cbn [lstrip]. rewrite (digit_not_space c Hc).
  assert (Hlit : match String c ds with
                 | String "-" r | String "+" r => r
                 | _ => String c ds
                 end = String c ds).
  { destruct (Ascii.eqb_spec c "-") as [->|]; [discriminate |].
    destruct (Ascii.eqb_spec c "+") as [->|]; [discriminate |].
    destruct c as [[] [] [] [] [] [] [] []]; congruence. }
  assert (Hneg : match String c ds with String "-" _ => true | _ => false end = false).
  { destruct (Ascii.eqb_spec c "-") as [->|]; [discriminate |].
    destruct c as [[] [] [] [] [] [] [] []]; congruence. }
  rewrite Hlit, Hneg, (scan_digits_run 0 0 false _ Hall).
  cbn [Nat.add]. apply Nat.ltb_ge in Hlen. rewrite Hlen.
  cbn [String.length Nat.eqb lstrip]. reflexivity.
Qed.

(** X19: the part number of a part file.  For a key whose last segment
    is [part_], a run of decimal digits (no more than [int()] accepts)
    and [.gz], the text left by the two [replace] calls is the run of
    digits, and the part number is the number it writes; leading zeros
    do not count. *)
Theorem part_number_of_part_file (prefix ds : string) :
  all_digits ds = true -> ds <> "" ->
  (String.length ds <= int_max_str_digits)%nat ->
  part_number (prefix ++ "/part_" ++ ds ++ ".gz") = Ok (decimal 0 ds).
Proof.
  intros Hds Hne Hlen. unfold part_number.
  assert (Hseg : has_char "/" ("part_" ++ ds ++ ".gz") = false).
  { cbn. clear Hne Hlen. induction ds as [|c ds IH]; [reflexivity |].
    cbn [all_digits] in Hds. apply andb_prop in Hds as [Hc Hds].
    cbn [String.append has_char]. rewrite (IH Hds), orb_false_r.
    destruct (Ascii.eqb_spec c "/") as [->|]; [discriminate | reflexivity]. }
  change (prefix ++ "/part_" ++ ds ++ ".gz")
    with (prefix ++ String "/" ("part_" ++ ds ++ ".gz")).
  rewrite (split_on_snoc "/" prefix _ Hseg), last_seg_snoc.
  assert (H1 : remove_all "part_" ("part_" ++ ds ++ ".gz") = ds ++ ".gz").
  { unfold remove_all. cbn [String.append remove_from strip_prefix String.length Nat.sub].
    change (Ascii.eqb "p" "p") with true. change (Ascii.eqb "a" "a") with true.
    change (Ascii.eqb "r" "r") with true. change (Ascii.eqb "t" "t") with true.
    change (Ascii.eqb "_" "_") with true. cbv iota.
    now rewrite (remove_from_digits "p" "art_" ds ".gz" eq_refl Hds). }
  assert (H2 : remove_all ".gz" (ds ++ ".gz") = ds).
  { unfold remove_all. rewrite (remove_from_digits "." "gz" ds ".gz" eq_refl Hds).
    cbn. apply append_nil_r. }
  rewrite H1, H2. now apply py_int_digits.
Qed.

(** X19 on part 012: the twelfth part. *)
Lemma part_number_of_part_file_witness :
  part_number ("data/works/updated_date=2025-08-04" ++ "/part_" ++ "012" ++ ".gz")
  = Ok (decimal 0 "012") /\
  decimal 0 "012" = 12.
Proof.
  split; [| reflexivity].
  apply (part_number_of_part_file "data/works/updated_date=2025-08-04" "012").
  - reflexivity.
  - discriminate.
  - unfold int_max_str_digits. cbn [String.length]. lia.
Defined.

Example part_number_ex :
  part_number key_0806 = Ok 1 /\
  part_in [PyInt 1] key_0806 = true /\ part_in [PyBool true] key_0806 = true /\
  part_in [PyInt 0] key_0806 = false.
Proof. repeat split; reflexivity. Qed.

(** A part number may be wrapped in the white space [int()] strips; a
    unit separator (character 31) is not such white space, and the
    filter raises on it. *)
Example part_number_white_space :
  part_number ("data/works/updated_date=2025-08-04/part_ 5.gz") = Ok 5 /\
  part_number ("data/works/updated_date=2025-08-04/part_"
               ++ String (ascii_of_nat 160) "5.gz") = Ok 5 /\
  part_number ("data/works/updated_date=2025-08-04/part_"
               ++ String (ascii_of_nat 31) "5.gz")
  = Raise (ValueError ("invalid literal for int() with base 10: '"
                       ++ String backslash "x1f5'")) /\
  select_parts (PyList [PyInt 5])
    ["data/works/updated_date=2025-08-04/part_" ++ String (ascii_of_nat 31) "5.gz"]
  = Raise (ValueError ("invalid literal for int() with base 10: '"
                       ++ String backslash "x1f5'")).
Proof. repeat split; reflexivity. Qed.

(** ** [get_table] *)






(** ** The script at the end of the module *)

(** X21: what the script gets.  On a fresh connection, if every
    non-manifest key under [data/works/] carries a calendar date, the
    script's [load_table] gets through its downloads, and [get_table]
    then returns [SELECT * FROM works] over exactly the rows the reader
    made of the staged files; if the reader raises, that exception is
    the script's. *)
Theorem main_returns_the_rows_read (w : world) (st : state) :
  catalog st = [] ->
  forallb passable (listed_keys (list_objects_v2 w ("data/" ++ "works" ++ "/"))) = true ->
  exists st1,
    stage (init 4 None) w (works_between "2025-08-04" "2025-08-05") st
    = (Ok "works", st1) /\
    fst (main w st) =
    match read_ndjson_auto w
            (select_of w (works_between "2025-08-04" "2025-08-05") "works")
            (files_of st1 "./.cache/oa") with
    | Ok rs => Ok (mkrelation (PyStr "*") "works" rs)
    | Raise e => Raise e
    end.
Proof.
  intros Hcat Hall.
  assert (Hv : fst (validate (works_between "2025-08-04" "2025-08-05") st) = Ok "works")
    by (rewrite validate_state; reflexivity).
  destruct (stage_effect (init 4 None) w (works_between "2025-08-04" "2025-08-05") st
              "works" "2025-08-04" "2025-08-05" (mkdate 2025 8 4) (mkdate 2025 8 5)
              _ _ Hv eq_refl eq_refl eq_refl eq_refl eq_refl
              (get_files_pages_ok _ _ _ [] Hall) eq_refl)
    as (st1 & Hst & _).
  exists st1. split; [exact Hst |].
  pose proof (preserves_stage (init 4 None) w
                (works_between "2025-08-04" "2025-08-05") st) as (Hc1 & _ & _).
  rewrite Hst in Hc1. cbn [snd] in Hc1. rewrite Hcat in Hc1.
  unfold main. unfold bind at 1.
  rewrite (load_table_after_stage _ _ _ _ _ _ Hst), conn_execute_statement.
  change (download_dir (works_between "2025-08-04" "2025-08-05")) with "./.cache/oa".
  destruct (read_ndjson_auto w
              (select_of w (works_between "2025-08-04" "2025-08-05") "works")
              (files_of st1 "./.cache/oa")) as [rs|e]; [| reflexivity].
  unfold get_table, conn_sql, bind, raise_if, get_state, ret, raise.
  cbn [catalog fst snd]. rewrite Hc1. reflexivity.
Qed.

Lemma main_returns_the_rows_read_witness :
  exists st1,
    stage (init 4 None) august_world (works_between "2025-08-04" "2025-08-05")
      empty_state = (Ok "works", st1) /\
    fst (main august_world empty_state) =
    match read_ndjson_auto august_world
            (select_of august_world (works_between "2025-08-04" "2025-08-05") "works")
            (files_of st1 "./.cache/oa") with
    | Ok rs => Ok (mkrelation (PyStr "*") "works" rs)
    | Raise e => Raise e
    end.
Proof.
  exact (main_returns_the_rows_read august_world empty_state eq_refl eq_refl).
Defined.

Example main_on_august_world :
  (fun r => match r with
            | Ok rel => Some (rel_table rel, List.length (rel_source rel))
            | Raise _ => None
            end) (fst (main august_world empty_state)) = Some ("works", 2%nat).
Proof. vm_compute. reflexivity. Qed.

(** ** The shape of an extracted date *)

(** X22: what [__extract_date] returns is either empty or a piece of
    the key: three non-empty runs of decimal digits joined by [-], which
    stand in the key right after an [updated_date=].  It never holds a
    character that is neither a digit nor [-]. *)
Theorem extract_date_is_empty_or_found_in_key (key : string) :
  extract_date key = "" \/
  exists pre y m d post,
    digit_run y /\ digit_run m /\ digit_run d /\
    key = pre ++ "updated_date=" ++ date_text y m d ++ post /\
    extract_date key = date_text y m d.
Proof.
  unfold extract_date. destruct (search key) as [g|] eqn:E; [| now left].
  right. apply search_Some_inv in E as (pre & t & -> & E).
  apply match_here_inv in E as (y & m & d & post & -> & -> & Hy & Hm & Hd).
  exists pre, y, m, d, post. auto.
Qed.
